(** * The MCP chat client of [mcp-client/client.py]

    A shallow embedding of the tool schema adapter ([convert_tool_format]),
    of the server connection ([MCPClient.connect_to_server]) and of the
    single-turn orchestration ([MCPClient.process_query]) together with the
    properties of the turn that the specification states.

    The language-model API and the tool-hosting process are external: each
    call site of the source that reaches one of them reads its answer from an
    environment record, and leaves an event in a ghost log of the client so
    that the calls a turn issues can be counted.  Python exceptions are the
    [Raise] outcome of a state-and-error monad; as in Python, what a
    computation did to the client before it raised stays done. *)

From Stdlib Require Import Ascii.
From stdpp Require Import base option list strings pretty gmap.

Local Open Scope string_scope.
Local Open Scope list_scope.

(** ** Values *)

#[local] Set Warnings "-register-all".

(** JSON-shaped Python values: what [json.loads] returns and what a tool's
    input schema holds.  Numbers are integers here; no property below looks
    inside a number. *)
Inductive JSON : Type :=
  | JNull
  | JBool (b : bool)
  | JNum (n : Z)
  | JStr (s : string)
  | JArr (items : list JSON)
  | JObj (fields : list (string * JSON)).

(** [d[key]] on a dict literal kept as an ordered field list. *)
Fixpoint assoc (key : string) (fields : list (string * JSON)) : option JSON :=
  match fields with
  | [] => None
  | (k, v) :: rest => if String.eqb k key then Some v else assoc key rest
  end.

Definition field (key : string) (v : JSON) : option JSON :=
  match v with
  | JObj fields => assoc key fields
  | _ => None
  end.

(** The exceptions the modelled code can raise or see raised.  All of them are
    subclasses of [Exception], the class the handlers of [process_query] and
    [chat_loop] catch.  What is raised outside that class ([KeyboardInterrupt],
    [asyncio.CancelledError]) passes through both handlers and has no outcome
    here: the runs described below are the runs without such a signal. *)
Inductive exn : Type :=
  | ValueError (msg : string)
  | KeyError (key : string)
  | IndexError
  | AttributeError
  | TypeError
  | JSONDecodeError
  | ExternalError (what : string).

Inductive outcome (A : Type) : Type :=
  | Ok (a : A)
  | Raise (e : exn).
Arguments Ok {A} a.
Arguments Raise {A} e.

(** ** Data model *)

(** [mcp.types.Tool]: the input schema is a plain dict. *)
Record Tool : Type := {
  name : string;
  description : option string;
  inputSchema : gmap string JSON
}.

(** A tool-call request of an assistant message. *)
Record Function : Type := {
  fn_name : string;
  arguments : string
}.

Record ToolCall : Type := {
  call_id : string;
  function : Function
}.

(** [response.choices[0].message]: text and tool calls are both optional. *)
Record Message : Type := {
  content : option string;
  tool_calls : option (list ToolCall)
}.

(** One element of [self.messages]. *)
Inductive Entry : Type :=
  | UserEntry (text : string)
  | AssistantEntry (message : Message)
  | ToolEntry (tool_call_id tool_name payload : string).

(** The content blocks of [mcp.types]. *)
Inductive ContentBlock : Type :=
  | TextContent (text : string)
  | ImageContent (data mimeType : string)
  | EmbeddedResource (resource : JSON).

(** [mcp.types.CallToolResult]: a failure reported by the tool is a result
    with [isError] set, not an exception. *)
Record CallToolResult : Type := {
  result_content : list ContentBlock;
  isError : bool
}.

Record StdioServerParameters : Type := {
  command : string;
  args : list string;
  env : option (list (string * string))
}.

(** ** The tool schema adapter (lines 24-37) *)

Definition subscript (d : gmap string JSON) (key : string) : outcome JSON :=
  match d !! key with
  | Some v => Ok v
  | None => Raise (KeyError key)
  end.

Definition opt_str (o : option string) : JSON :=
  match o with
  | Some s => JStr s
  | None => JNull
  end.

Definition convert_tool_format (tool : Tool) : outcome JSON :=
  match subscript (inputSchema tool) "properties" with
  | Raise e => Raise e
  | Ok properties =>
    match subscript (inputSchema tool) "required" with
    | Raise e => Raise e
    | Ok required =>
      Ok (JObj [
        ("type", JStr "function");
        ("function", JObj [
          ("name", JStr (name tool));
          ("description", opt_str (description tool));
          ("parameters", JObj [
            ("type", JStr "object");
            ("properties", properties);
            ("required", required)
          ])
        ])
      ])
    end
  end.

(** The list comprehension of line 87: the first descriptor that fails to
    convert raises. *)
Fixpoint convert_all (tools : list Tool) : outcome (list JSON) :=
  match tools with
  | [] => Ok []
  | tool :: rest =>
    match convert_tool_format tool with
    | Raise e => Raise e
    | Ok converted =>
      match convert_all rest with
      | Raise e => Raise e
      | Ok more => Ok (converted :: more)
      end
    end
  end.

(** ** Strings *)

(** [str.endswith]. *)
Definition endswith (s suffix : string) : bool :=
  let n := String.length s in
  let m := String.length suffix in
  if (m <=? n)%nat then String.eqb (String.substring (n - m) m s) suffix else false.

(** Truth value of a [str]: only the empty string is false. *)
Definition truthy (s : string) : bool :=
  match s with
  | EmptyString => false
  | String _ _ => true
  end.

Definition newline : string := String (ascii_of_nat 10) EmptyString.

(** [sep.join(parts)]: a [None] among the parts is a [TypeError]. *)
Fixpoint join (sep : string) (parts : list (option string)) : outcome string :=
  match parts with
  | [] => Ok EmptyString
  | None :: _ => Raise TypeError
  | Some s :: rest =>
    match rest with
    | [] => Ok s
    | _ :: _ =>
      match join sep rest with
      | Ok t => Ok (s +:+ sep +:+ t)
      | Raise e => Raise e
      end
    end
  end.

(** ** The client and its monad *)

(** What the client asks of the outside world, in the order asked. *)
Inductive Event : Type :=
  | EvSpawn (params : StdioServerParameters)
  | EvOpenSession
  | EvInitialize
  | EvListTools
  | EvChat (tools : list JSON) (history : list Entry)
  | EvCallTool (tool : string) (tool_args : JSON).

(** [self.messages], and the ghost log of outside calls. *)
Record MCPClient : Type := {
  messages : list Entry;
  calls : list Event
}.

Definition M (A : Type) : Type := MCPClient -> outcome A * MCPClient.

#[export] Instance M_ret : MRet M := fun A a c => (Ok a, c).

#[export] Instance M_bind : MBind M := fun A B k m c =>
  match m c with
  | (Ok a, c') => k a c'
  | (Raise e, c') => (Raise e, c')
  end.

Definition raise {A} (e : exn) : M A := fun c => (Raise e, c).

Definition lift {A} (r : outcome A) : M A := fun c => (r, c).

(** [try: body  except Exception as e: handler]; every [exn] is an
    [Exception]. *)
Definition try_except {A} (body : M A) (handler : exn -> M A) : M A := fun c =>
  match body c with
  | (Ok a, c') => (Ok a, c')
  | (Raise e, c') => handler e c'
  end.

Definition get_messages : M (list Entry) := fun c => (Ok (messages c), c).

(** [self.messages.append(entry)]. *)
Definition append_message (entry : Entry) : M unit := fun c =>
  (Ok tt, {| messages := messages c ++ [entry]; calls := calls c |}).

(** [self.messages = entries]. *)
Definition set_messages (entries : list Entry) : M unit := fun c =>
  (Ok tt, {| messages := entries; calls := calls c |}).

Definition emit (ev : Event) : M unit := fun c =>
  (Ok tt, {| messages := messages c; calls := calls c ++ [ev] |}).

(** [seq[i]]. *)
Definition index {A} (seq : list A) (i : nat) : outcome A :=
  match seq !! i with
  | Some x => Ok x
  | None => Raise IndexError
  end.

(** Counting the calls of a log. *)
Definition is_call_tool (ev : Event) : bool :=
  match ev with EvCallTool _ _ => true | _ => false end.

Definition is_chat (ev : Event) : bool :=
  match ev with EvChat _ _ => true | _ => false end.

Definition is_tool_entry (entry : Entry) : bool :=
  match entry with ToolEntry _ _ _ => true | _ => false end.

Definition call_tool_events (log : list Event) : list Event :=
  List.filter is_call_tool log.

Definition chat_count (log : list Event) : nat :=
  length (List.filter is_chat log).

(** ** Connecting (lines 51-79) *)

(** The answers of the outside world during a connection. *)
Record ConnEnv : Type := {
  conn_stdio_client : StdioServerParameters -> outcome unit;
  conn_client_session : outcome unit;
  conn_initialize : outcome unit;
  conn_list_tools : outcome (list Tool)
}.

Definition connect_to_server (world : ConnEnv) (server_script_path : string) : M unit :=
  let is_python := endswith server_script_path ".py" in
  let is_js := endswith server_script_path ".js" in
  if negb (is_python || is_js) then
    raise (ValueError "Server script must be a .py or .js file")
  else
    let command := if is_python then "python" else "node" in
    let server_params :=
      {| command := command; args := [server_script_path]; env := None |} in
    emit (EvSpawn server_params) ;;
    lift (conn_stdio_client world server_params) ;;
    emit EvOpenSession ;;
    lift (conn_client_session world) ;;
    emit EvInitialize ;;
    lift (conn_initialize world) ;;
    emit EvListTools ;;
    response ← lift (conn_list_tools world) ;
    let tools := response in
    set_messages [].

(** ** One turn (lines 81-129) *)

(** The answers of the outside world during one turn; each is read by one
    call site, and each call site runs at most once in a turn. *)
Record TurnEnv : Type := {
  list_tools : outcome (list Tool);
  chat_first : list JSON -> list Entry -> outcome Message;
  call_tool : string -> JSON -> outcome CallToolResult;
  chat_second : list JSON -> list Entry -> outcome Message
}.

Section Turn.

(** Library functions the turn calls: [json.loads] ([None] when it raises
    [JSONDecodeError]), the [str()] of the parsed arguments inside the
    announcement, and pydantic's [model_dump_json] on a content block. *)
Variable json_loads : string -> option JSON.
Variable py_str : JSON -> string.
Variable model_dump_json : ContentBlock -> string.

Definition loads (s : string) : outcome JSON :=
  match json_loads s with
  | Some v => Ok v
  | None => Raise JSONDecodeError
  end.

(** Line 101: [json.loads(tool_args) if tool_args else {}]. *)
Definition parse_arguments (tool_args : string) : outcome JSON :=
  if truthy tool_args then loads tool_args else Ok (JObj []).

(** [f"[Calling tool {tool_name} with args {tool_args}]"]. *)
Definition announcement (tool_name : string) (tool_args : JSON) : string :=
  "[Calling tool " +:+ tool_name +:+ " with args " +:+ py_str tool_args +:+ "]".

(** [result.content] where [result] may be [None]. *)
Definition content_of (result : option CallToolResult) : outcome (list ContentBlock) :=
  match result with
  | Some r => Ok (result_content r)
  | None => Raise AttributeError
  end.

Definition process_query (world : TurnEnv) (query : string) : M string :=
  append_message (UserEntry query) ;;
  emit EvListTools ;;
  response ← lift (list_tools world) ;
  available_tools ← lift (convert_all response) ;
  history ← get_messages ;
  emit (EvChat available_tools history) ;;
  response ← lift (chat_first world available_tools history) ;
  append_message (AssistantEntry response) ;;
  let final_text : list (option string) := [] in
  let message := response in
  match tool_calls message with
  | Some requests =>
    first ← lift (index requests 0) ;
    let tool_name := fn_name (function first) in
    let tool_args := arguments (function first) in
    tool_args ← lift (parse_arguments tool_args) ;
    '(result, final_text) ←
      try_except (A := option CallToolResult * list (option string))
        (emit (EvCallTool tool_name tool_args) ;;
         result ← lift (call_tool world tool_name tool_args) ;
         mret (Some result,
               final_text ++ [Some (announcement tool_name tool_args)]))
        (fun e => mret (None, final_text)) ;
    blocks ← lift (content_of result) ;
    block ← lift (index blocks 0) ;
    append_message
      (ToolEntry (call_id first) tool_name (model_dump_json block)) ;;
    history ← get_messages ;
    emit (EvChat available_tools history) ;;
    response ← lift (chat_second world available_tools history) ;
    let final_text := final_text ++ [content response] in
    lift (join newline final_text)
  | None =>
    let final_text := final_text ++ [content message] in
    lift (join newline final_text)
  end.

(** The log of the turn once the tool entry is appended. *)
Definition with_tool_entry (c : MCPClient) (query : string) (m : Message)
    (request : ToolCall) (block : ContentBlock) : list Entry :=
  messages c ++
    [UserEntry query; AssistantEntry m;
     ToolEntry (call_id request) (fn_name (function request))
       (model_dump_json block)].

End Turn.

(** ** Reading a turn *)

(** The events a computation added to the ghost log, and the entries it added
    to the conversation. *)
Definition issued (before after : MCPClient) : list Event :=
  drop (length (calls before)) (calls after).

Definition appended (before after : MCPClient) : list Entry :=
  drop (length (messages before)) (messages after).

(** The turn reached its first model response: the tool list was fetched and
    converted to [tools], and the model answered [m] to the history that ends
    in the new user entry. *)
Definition first_response (world : TurnEnv) (query : string) (c : MCPClient)
    (tools : list JSON) (m : Message) : Prop :=
  exists descriptors,
    list_tools world = Ok descriptors /\
    convert_all descriptors = Ok tools /\
    chat_first world tools (messages c ++ [UserEntry query]) = Ok m.

(** The turns of [chat_loop] (lines 135-146): each query is handed to
    [process_query], and an exception of the turn is caught and logged, so
    the next turn starts from the client as the failed one left it. *)
Fixpoint chat_turns (json_loads : string -> option JSON) (py_str : JSON -> string)
    (model_dump_json : ContentBlock -> string)
    (turns : list (TurnEnv * string)) (c : MCPClient) : MCPClient :=
  match turns with
  | [] => c
  | (world, query) :: rest =>
    chat_turns json_loads py_str model_dump_json rest
      (process_query json_loads py_str model_dump_json world query c).2
  end.

(** Every tool entry of a log answers the first tool-call request of the
    assistant entry right before it. *)
Definition correlated (log : list Entry) : Prop :=
  forall i id tool payload,
    log !! i = Some (ToolEntry id tool payload) ->
    exists j m request more,
      i = S j /\
      log !! j = Some (AssistantEntry m) /\
      tool_calls m = Some (request :: more) /\
      call_id request = id.

(** What one turn may add to the log. *)
Inductive turn_growth (query : string) : list Entry -> Prop :=
  | grow_user :
      turn_growth query [UserEntry query]
  | grow_assistant m :
      turn_growth query [UserEntry query; AssistantEntry m]
  | grow_tool m request more tool payload :
      tool_calls m = Some (request :: more) ->
      turn_growth query
        [UserEntry query; AssistantEntry m;
         ToolEntry (call_id request) tool payload].

(** ** The interactive loop and the entry point (lines 39-47, 130-164) *)

Section Loop.

Variable json_loads : string -> option JSON.
Variable py_str : JSON -> string.
Variable model_dump_json : ContentBlock -> string.

(** [str.strip] and [str.lower]. *)
Variable strip : string -> string.
Variable lower : string -> string.

(** [chat_loop].  The console holds the lines still to be typed, each with
    the world its turn would meet; at the end of the input [input()] raises
    [EOFError], which the handler of the loop catches like any exception of a
    turn.  The loop has no bound: [fuel] counts its iterations, and [None]
    says that the loop has not returned when the fuel is spent; [Some] is the
    return through [break]. *)
Fixpoint chat_loop (fuel : nat) (console : list (TurnEnv * string))
    (c : MCPClient) : option MCPClient :=
  match fuel with
  | O => None
  | S fuel' =>
    match console with
    | [] => chat_loop fuel' [] c
    | (world, line) :: rest =>
      let query := strip line in
      if String.eqb (lower query) "quit" then Some c
      else
        chat_loop fuel' rest
          (process_query json_loads py_str model_dump_json world query c).2
    end
  end.

(** The test that ends the loop, on a line as typed, and the queries the
    loop hands to [process_query] for the lines it reads. *)
Definition is_quit (line : string) : bool :=
  String.eqb (lower (strip line)) "quit".

Definition queries (lines : list (TurnEnv * string)) : list (TurnEnv * string) :=
  List.map (fun typed => (typed.1, strip typed.2)) lines.

(** What [main] meets outside: the loaded [.env] file, the constructor of the
    model client, and the tool server. *)
Record MainEnv : Type := {
  config : gmap string (option string);
  openai_client : option string -> outcome unit;
  server : ConnEnv
}.

(** [MCPClient.__init__].  The log of a new client is shown empty here; the
    source creates the attribute in [connect_to_server] only, and [main]
    reads it after that. *)
Definition MCPClient_init (world : MainEnv) : outcome MCPClient :=
  match config world !! "OPENROUTER_API_KEY" with
  | None => Raise (KeyError "OPENROUTER_API_KEY")
  | Some api_key =>
    match openai_client world api_key with
    | Raise e => Raise e
    | Ok _ => Ok {| messages := []; calls := [] |}
    end
  end.

(** How a run of [main] ends, the client it built, and how often [cleanup]
    ran. *)
Inductive Ending : Type :=
  | SystemExit (status : nat)
  | Returned
  | Uncaught (e : exn).

Record Run : Type := {
  ending : Ending;
  client : option MCPClient;
  cleanups : nat
}.

(** [main]: the client is built outside the [try], and the [finally] clause
    runs [cleanup] on both ways out of it. *)
Definition main (fuel : nat) (world : MainEnv) (argv : list string)
    (console : list (TurnEnv * string)) : option Run :=
  if (length argv <? 2)%nat then
    Some {| ending := SystemExit 1; client := None; cleanups := 0 |}
  else
    match MCPClient_init world with
    | Raise e => Some {| ending := Uncaught e; client := None; cleanups := 0 |}
    | Ok c =>
      match index argv 1 with
      | Raise e => Some {| ending := Uncaught e; client := Some c; cleanups := 1 |}
      | Ok server_script_path =>
        match connect_to_server (server world) server_script_path c with
        | (Raise e, c') =>
          Some {| ending := Uncaught e; client := Some c'; cleanups := 1 |}
        | (Ok _, c') =>
          match chat_loop fuel console c' with
          | None => None
          | Some c'' =>
            Some {| ending := Returned; client := Some c''; cleanups := 1 |}
          end
        end
      end
    end.

End Loop.

(** ** Concrete library functions and scenarios *)

Module Scenario.

Definition dquote : string := String (ascii_of_nat 34) EmptyString.

Definition quoted (s : string) : string := dquote +:+ s +:+ dquote.

(** Printing a value with Python's [str] or as compact JSON; strings are
    printed as they are, which is right for printable ASCII without quotes
    and backslashes. *)
Section Show.
Variables quote null yes no comma colon : string.

Fixpoint show (v : JSON) : string :=
  match v with
  | JNull => null
  | JBool b => if b then yes else no
  | JNum n => pretty n
  | JStr s => quote +:+ s +:+ quote
  | JArr items =>
    "[" +:+
    (fix go (l : list JSON) : string :=
       match l with
       | [] => EmptyString
       | x :: rest =>
         match rest with
         | [] => show x
         | _ :: _ => show x +:+ comma +:+ go rest
         end
       end) items +:+ "]"
  | JObj fields =>
    "{" +:+
    (fix go (l : list (string * JSON)) : string :=
       match l with
       | [] => EmptyString
       | (k, x) :: rest =>
         match rest with
         | [] => quote +:+ k +:+ quote +:+ colon +:+ show x
         | _ :: _ => quote +:+ k +:+ quote +:+ colon +:+ show x +:+ comma +:+ go rest
         end
       end) fields +:+ "}"
  end.
End Show.

Definition py_repr : JSON -> string := show "'" "None" "True" "False" ", " ": ".

Definition py_str (v : JSON) : string :=
  match v with
  | JStr s => s
  | _ => py_repr v
  end.

Definition dumps : JSON -> string := show dquote "null" "true" "false" "," ":".

Definition model_dump_json (block : ContentBlock) : string :=
  match block with
  | TextContent text =>
    dumps (JObj [("type", JStr "text"); ("text", JStr text); ("annotations", JNull)])
  | ImageContent data mimeType =>
    dumps (JObj [("type", JStr "image"); ("data", JStr data);
                 ("mimeType", JStr mimeType); ("annotations", JNull)])
  | EmbeddedResource resource =>
    dumps (JObj [("type", JStr "resource"); ("resource", resource);
                 ("annotations", JNull)])
  end.

(** A reader for the JSON payloads of the scenarios: one object whose
    values are strings of printable ASCII without escapes.  It accepts only
    texts [json.loads] accepts, with the same value, and rejects the
    malformed payload used below, as [json.loads] does. *)
Definition is_ws (ch : ascii) : bool :=
  let n := nat_of_ascii ch in
  ((n =? 32) || (n =? 9) || (n =? 10) || (n =? 13))%nat.

Definition plain (ch : ascii) : bool :=
  let n := nat_of_ascii ch in
  ((32 <=? n) && (n <? 127) && negb (n =? 34) && negb (n =? 92))%nat.

Fixpoint skip_ws (s : string) : string :=
  match s with
  | String ch rest => if is_ws ch then skip_ws rest else s
  | EmptyString => s
  end.

(** After an opening quote: the text up to the closing quote, and what
    follows it. *)
Fixpoint read_string (s : string) : option (string * string) :=
  match s with
  | EmptyString => None
  | String ch rest =>
    if (nat_of_ascii ch =? 34)%nat then Some (EmptyString, rest)
    else if plain ch then
      '(text, rest') ← read_string rest; Some (String ch text, rest')
    else None
  end.

Definition expect (ch : ascii) (s : string) : option string :=
  match skip_ws s with
  | String ch' rest => if Ascii.eqb ch ch' then Some rest else None
  | EmptyString => None
  end.

Definition read_quoted (s : string) : option (string * string) :=
  rest ← expect (ascii_of_nat 34) s; read_string rest.

Fixpoint read_members (fuel : nat) (s : string)
    : option (list (string * JSON) * string) :=
  match fuel with
  | O => None
  | S fuel' =>
    '(key, s1) ← read_quoted s;
    s2 ← expect ":"%char s1;
    '(value, s3) ← read_quoted s2;
    match expect "}"%char s3 with
    | Some s4 => Some ([(key, JStr value)], s4)
    | None =>
      s4 ← expect ","%char s3;
      '(more, s5) ← read_members fuel' s4;
      Some ((key, JStr value) :: more, s5)
    end
  end.

Definition json_loads (s : string) : option JSON :=
  s1 ← expect "{"%char s;
  '(fields, rest) ←
    match expect "}"%char s1 with
    | Some s2 => Some ([], s2)
    | None => read_members (String.length s) s1
    end;
  match skip_ws rest with
  | EmptyString => Some (JObj fields)
  | String _ _ => None
  end.

(** The tool of the specification's scenario, as its server declares it. *)
Definition list_files : Tool := {|
  name := "list_files";
  description := Some "List the files of a directory";
  inputSchema :=
    <["type" := JStr "object"]>
    (<["properties" := JObj [("path", JObj [("type", JStr "string")])]]>
    (<["required" := JArr [JStr "path"]]> ∅))
|}.

(** A tool whose schema declares no required parameter. *)
Definition ping : Tool := {|
  name := "ping";
  description := None;
  inputSchema := <["type" := JStr "object"]> (<["properties" := JObj []]> ∅)
|}.

Definition request (payload : string) : ToolCall := {|
  call_id := "call_1";
  function := {| fn_name := "list_files"; arguments := payload |}
|}.

Definition payload_tmp : string :=
  "{" +:+ quoted "path" +:+ ": " +:+ quoted "/tmp" +:+ "}".

Definition payload_malformed : string := "{oops".

Definition asks (payload : string) : Message := {|
  content := Some "Let me look.";
  tool_calls := Some [request payload]
|}.

Definition says (text : string) : Message := {|
  content := Some text;
  tool_calls := None
|}.

Definition listing : CallToolResult := {|
  result_content := [TextContent "a.txt"; TextContent "b.txt"];
  isError := false
|}.

(** A world is fixed by the first answer of the model and the answer of the
    tool process; the second answer of the model is a summary. *)
Definition world (first : outcome Message) (tool : outcome CallToolResult)
    : TurnEnv := {|
  list_tools := Ok [list_files];
  chat_first := fun _ _ => first;
  call_tool := fun _ _ => tool;
  chat_second := fun _ _ => Ok (says "Two files: a.txt and b.txt.")
|}.

Definition plain_answer : TurnEnv := world (Ok (says "4")) (Ok listing).

Definition tool_success : TurnEnv := world (Ok (asks payload_tmp)) (Ok listing).
Definition tool_fault : TurnEnv :=
  world (Ok (asks payload_tmp)) (Raise (ExternalError "broken pipe")).
Definition tool_silent : TurnEnv :=
  world (Ok (asks payload_tmp)) (Ok {| result_content := []; isError := false |}).
Definition bad_payload : TurnEnv := world (Ok (asks payload_malformed)) (Ok listing).
Definition no_payload : TurnEnv := world (Ok (asks EmptyString)) (Ok listing).
Definition model_down : TurnEnv :=
  world (Raise (ExternalError "rate limit")) (Ok listing).
Definition empty_requests : TurnEnv :=
  world (Ok {| content := Some "Nothing to call."; tool_calls := Some [] |})
        (Ok listing).

(** What the adapter makes of the tool list of these worlds. *)
Definition schemas : list JSON :=
  [JObj [
     ("type", JStr "function");
     ("function", JObj [
        ("name", JStr "list_files");
        ("description", JStr "List the files of a directory");
        ("parameters", JObj [
           ("type", JStr "object");
           ("properties", JObj [("path", JObj [("type", JStr "string")])]);
           ("required", JArr [JStr "path"])])])]].

Definition fresh : MCPClient := {| messages := []; calls := [] |}.

Definition question : string := "List files in /tmp".

Definition run (w : TurnEnv) (query : string) (c : MCPClient)
    : outcome string * MCPClient :=
  process_query json_loads py_str model_dump_json w query c.

(** Three turns in a row; the model call of the second one fails. *)
Definition three_turns : list (TurnEnv * string) :=
  [(tool_success, question); (model_down, question); (plain_answer, "What is 2+2?")].

Definition connection : ConnEnv := {|
  conn_stdio_client := fun _ => Ok tt;
  conn_client_session := Ok tt;
  conn_initialize := Ok tt;
  conn_list_tools := Ok [list_files]
|}.

(** [str.strip] and [str.lower] on ASCII text. *)
Definition is_space (ch : ascii) : bool :=
  let n := nat_of_ascii ch in
  (((9 <=? n) && (n <=? 13)) || ((28 <=? n) && (n <=? 32)))%nat.

Fixpoint lstrip (s : string) : string :=
  match s with
  | String ch rest => if is_space ch then lstrip rest else s
  | EmptyString => s
  end.

Definition strip (s : string) : string :=
  String.rev (lstrip (String.rev (lstrip s))).

Definition lower_char (ch : ascii) : ascii :=
  let n := nat_of_ascii ch in
  if ((65 <=? n) && (n <=? 90))%nat then ascii_of_nat (n + 32) else ch.

Fixpoint lower (s : string) : string :=
  match s with
  | String ch rest => String (lower_char ch) (lower rest)
  | EmptyString => EmptyString
  end.

(** A session at the console: two queries, the word that ends the loop, and
    a line that is never read. *)
Definition console : list (TurnEnv * string) :=
  [(tool_success, "  List files in /tmp ");
   (model_down, "And in /var?");
   (plain_answer, " QUIT  ");
   (plain_answer, "What is 2+2?")].

(** The same session without the word that ends the loop. *)
Definition endless : list (TurnEnv * string) :=
  [(tool_success, "  List files in /tmp "); (model_down, "And in /var?")].

Definition loop (fuel : nat) (lines : list (TurnEnv * string)) (c : MCPClient)
    : option MCPClient :=
  chat_loop json_loads py_str model_dump_json strip lower fuel lines c.

Definition setup : MainEnv := {|
  config := <["OPENROUTER_API_KEY" := Some "sk-or-v1-0000"]> ∅;
  openai_client := fun _ => Ok tt;
  server := connection
|}.

Definition no_key : MainEnv := {|
  config := <["OPENAI_API_KEY" := Some "sk-0000"]> ∅;
  openai_client := fun _ => Ok tt;
  server := connection
|}.

(** A server that starts but does not answer the handshake. *)
Definition mute : ConnEnv := {|
  conn_stdio_client := fun _ => Ok tt;
  conn_client_session := Ok tt;
  conn_initialize := Raise (ExternalError "timed out");
  conn_list_tools := Ok [list_files]
|}.

Definition entry (fuel : nat) (w : MainEnv) (argv : list string)
    (lines : list (TurnEnv * string)) : option Run :=
  main json_loads py_str model_dump_json strip lower fuel w argv lines.

(** A server that also offers the tool without [required]. *)
Definition broken_listing : TurnEnv := {|
  list_tools := Ok [list_files; ping];
  chat_first := fun _ _ => Ok (says "4");
  call_tool := fun _ _ => Ok listing;
  chat_second := fun _ _ => Ok (says "Two files: a.txt and b.txt.")
|}.

(** The tool answers with the same blocks, marked as an error. *)
Definition tool_error : TurnEnv :=
  world (Ok (asks payload_tmp))
        (Ok {| result_content := [TextContent "a.txt"; TextContent "b.txt"];
               isError := true |}).

(** The second response asks for the tool again and carries no text. *)
Definition asks_again : TurnEnv := {|
  list_tools := Ok [list_files];
  chat_first := fun _ _ => Ok (asks payload_tmp);
  call_tool := fun _ _ => Ok listing;
  chat_second := fun _ _ =>
    Ok {| content := None; tool_calls := Some [request payload_tmp] |}
|}.

(** A client in the middle of a conversation. *)
Definition busy : MCPClient := {|
  messages := [UserEntry "What is 2+2?"; AssistantEntry (says "4")];
  calls := []
|}.

End Scenario.

(** The client once the first model response [m] is in: the user and
    assistant entries are appended, the tool list and the model were asked. *)
Definition answered (c : MCPClient) (query : string) (tools : list JSON)
    (m : Message) : MCPClient := {|
  messages := messages c ++ [UserEntry query; AssistantEntry m];
  calls := calls c ++ [EvListTools; EvChat tools (messages c ++ [UserEntry query])]
|}.

(** The same client once the tool process was asked too. *)
Definition dispatched (c : MCPClient) (query : string) (tools : list JSON)
    (m : Message) (tool : string) (tool_args : JSON) : MCPClient := {|
  messages := messages (answered c query tools m);
  calls := calls (answered c query tools m) ++ [EvCallTool tool tool_args]
|}.

(** * Facts *)

Ltac run_turn :=
  unfold process_query, mbind, M_bind, mret, M_ret, lift, emit,
    append_message, get_messages, set_messages, try_except, raise, content_of,
    index; simpl.

Ltac tidy := unfold dispatched, answered; simpl; rewrite <- ?app_assoc; simpl.

Lemma issued_app c c' new :
  calls c' = calls c ++ new -> issued c c' = new.
Proof. intros H. unfold issued. rewrite H. apply drop_app_length. Qed.

Lemma appended_app c c' new :
  messages c' = messages c ++ new -> appended c c' = new.
Proof. intros H. unfold appended. rewrite H. apply drop_app_length. Qed.

Section TurnFacts.

Variable json_loads : string -> option JSON.
Variable py_str : JSON -> string.
Variable model_dump_json : ContentBlock -> string.

#[local] Abbreviation turn := (process_query json_loads py_str model_dump_json).
#[local] Abbreviation parse := (parse_arguments json_loads).
#[local] Abbreviation announce := (announcement py_str).

(** *** The turn, path by path *)

Lemma turn_no_tool_calls world query c tools m :
  first_response world query c tools m ->
  tool_calls m = None ->
  turn world query c = (join newline [content m], answered c query tools m).
Proof.
  intros (descriptors & Hlist & Hconv & Hchat) Hnone.
  run_turn. rewrite Hlist, Hconv. simpl. rewrite Hchat. simpl. rewrite Hnone.
  simpl. tidy. reflexivity.
Qed.

Lemma turn_empty_requests world query c tools m :
  first_response world query c tools m ->
  tool_calls m = Some [] ->
  turn world query c = (Raise IndexError, answered c query tools m).
Proof.
  intros (descriptors & Hlist & Hconv & Hchat) Hnone.
  run_turn. rewrite Hlist, Hconv. simpl. rewrite Hchat. simpl. rewrite Hnone.
  simpl. tidy. reflexivity.
Qed.

Lemma turn_parse_failure world query c tools m request more e :
  first_response world query c tools m ->
  tool_calls m = Some (request :: more) ->
  parse (arguments (function request)) = Raise e ->
  turn world query c = (Raise e, answered c query tools m).
Proof.
  intros (descriptors & Hlist & Hconv & Hchat) Hsome Hparse.
  run_turn. rewrite Hlist, Hconv. simpl. rewrite Hchat. simpl. rewrite Hsome.
  simpl. rewrite Hparse. tidy. reflexivity.
Qed.

Lemma turn_dispatch_raises world query c tools m request more a e :
  first_response world query c tools m ->
  tool_calls m = Some (request :: more) ->
  parse (arguments (function request)) = Ok a ->
  call_tool world (fn_name (function request)) a = Raise e ->
  turn world query c =
    (Raise AttributeError,
     dispatched c query tools m (fn_name (function request)) a).
Proof.
  intros (descriptors & Hlist & Hconv & Hchat) Hsome Hparse Hcall.
  run_turn. rewrite Hlist, Hconv. simpl. rewrite Hchat. simpl. rewrite Hsome.
  simpl. rewrite Hparse. rewrite Hcall. tidy. reflexivity.
Qed.

Lemma turn_no_blocks world query c tools m request more a r :
  first_response world query c tools m ->
  tool_calls m = Some (request :: more) ->
  parse (arguments (function request)) = Ok a ->
  call_tool world (fn_name (function request)) a = Ok r ->
  result_content r = [] ->
  turn world query c =
    (Raise IndexError,
     dispatched c query tools m (fn_name (function request)) a).
Proof.
  intros (descriptors & Hlist & Hconv & Hchat) Hsome Hparse Hcall Hnil.
  run_turn. rewrite Hlist, Hconv. simpl. rewrite Hchat. simpl. rewrite Hsome.
  simpl. rewrite Hparse. rewrite Hcall. simpl. rewrite Hnil. tidy.
  reflexivity.
Qed.

Lemma turn_tool_entry world query c tools m request more a r block blocks :
  first_response world query c tools m ->
  tool_calls m = Some (request :: more) ->
  parse (arguments (function request)) = Ok a ->
  call_tool world (fn_name (function request)) a = Ok r ->
  result_content r = block :: blocks ->
  turn world query c =
    (match chat_second world tools (with_tool_entry model_dump_json c query m request block) with
     | Ok m2 =>
       join newline [Some (announce (fn_name (function request)) a); content m2]
     | Raise e => Raise e
     end,
     {| messages := with_tool_entry model_dump_json c query m request block;
        calls :=
          calls (dispatched c query tools m (fn_name (function request)) a) ++
          [EvChat tools (with_tool_entry model_dump_json c query m request block)] |}).
Proof.
  intros (descriptors & Hlist & Hconv & Hchat) Hsome Hparse Hcall Hcons.
  run_turn. rewrite Hlist, Hconv. simpl. rewrite Hchat. simpl. rewrite Hsome.
  simpl. rewrite Hparse. rewrite Hcall. simpl. rewrite Hcons.
  unfold with_tool_entry. tidy.
  destruct (chat_second world tools _); reflexivity.
Qed.

(** *** Turns without a tool-call request *)


(** Without text in the message there is nothing to join: the turn raises
    [TypeError], still without a dispatch or a second model call. *)
Lemma no_request_without_text world query c tools m :
  first_response world query c tools m ->
  tool_calls m = None ->
  content m = None ->
  turn world query c = (Raise TypeError, answered c query tools m).
Proof.
  intros Hfirst Hnone Htext.
  rewrite (turn_no_tool_calls _ _ _ _ _ Hfirst Hnone), Htext. reflexivity.
Qed.

(** *** Turns with a tool-call request *)

(** C10. The tool-call branch is taken as soon as the tool-call list is
    present: with a present but empty list the access to its first element
    raises [IndexError], whatever text the message carries; nothing is
    dispatched and the model is not called again. *)
Theorem empty_request_list_raises world query c tools m :
  first_response world query c tools m ->
  tool_calls m = Some [] ->
  let c' := (turn world query c).2 in
  (turn world query c).1 = Raise IndexError /\
  appended c c' = [UserEntry query; AssistantEntry m] /\
  call_tool_events (issued c c') = [] /\
  chat_count (issued c c') = 1.
Proof.
  intros Hfirst Hempty.
  rewrite (turn_empty_requests _ _ _ _ _ Hfirst Hempty). simpl.
  rewrite (issued_app c (answered c query tools m) _ eq_refl).
  rewrite (appended_app c (answered c query tools m) _ eq_refl).
  done.
Qed.

(** C9. When the dispatch returns a Tool Result, the tool entry carries the
    serialization of its first content block only, under the identifier and
    name of the first request; a result without content blocks makes the
    append raise [IndexError], and no tool entry is appended. *)
Theorem tool_entry_first_block world query c tools m request more a r :
  first_response world query c tools m ->
  tool_calls m = Some (request :: more) ->
  parse (arguments (function request)) = Ok a ->
  call_tool world (fn_name (function request)) a = Ok r ->
  let c' := (turn world query c).2 in
  (forall block blocks,
     result_content r = block :: blocks ->
     appended c c' =
       [UserEntry query; AssistantEntry m;
        ToolEntry (call_id request) (fn_name (function request))
          (model_dump_json block)]) /\
  (result_content r = [] ->
     (turn world query c).1 = Raise IndexError /\
     appended c c' = [UserEntry query; AssistantEntry m]).
Proof.
  intros Hfirst Hsome Hparse Hcall. split.
  - intros block blocks Hcons.
    rewrite (turn_tool_entry _ _ _ _ _ _ _ _ _ _ _ Hfirst Hsome Hparse Hcall Hcons).
    simpl. apply appended_app. reflexivity.
  - intros Hnil.
    rewrite (turn_no_blocks _ _ _ _ _ _ _ _ _ Hfirst Hsome Hparse Hcall Hnil).
    simpl. split; [reflexivity|]. apply appended_app. reflexivity.
Qed.

(** C1 (what the code does). When [call_tool] raises, the handler sets the
    result to [None] and the construction of the tool entry then reads
    [result.content]: the turn raises [AttributeError], no tool entry is
    appended, and the model is not called a second time. *)
Theorem dispatch_fault_aborts_turn world query c tools m request more a e :
  first_response world query c tools m ->
  tool_calls m = Some (request :: more) ->
  parse (arguments (function request)) = Ok a ->
  call_tool world (fn_name (function request)) a = Raise e ->
  let c' := (turn world query c).2 in
  (turn world query c).1 = Raise AttributeError /\
  appended c c' = [UserEntry query; AssistantEntry m] /\
  call_tool_events (issued c c') = [EvCallTool (fn_name (function request)) a] /\
  chat_count (issued c c') = 1.
Proof.
  intros Hfirst Hsome Hparse Hcall.
  rewrite (turn_dispatch_raises _ _ _ _ _ _ _ _ _ Hfirst Hsome Hparse Hcall).
  simpl.
  rewrite (appended_app c (dispatched c query tools m _ a) _ eq_refl).
  rewrite (issued_app c (dispatched c query tools m (fn_name (function request)) a)
             [EvListTools; EvChat tools (messages c ++ [UserEntry query]);
              EvCallTool (fn_name (function request)) a]).
  - done.
  - tidy. reflexivity.
Qed.

(** *** What every path of the tool branch shares *)

Lemma first_response_dec world query c :
  (exists tools m, first_response world query c tools m) \/
  (forall tools m, ~ first_response world query c tools m).
Proof.
  unfold first_response.
  destruct (list_tools world) as [descriptors|e] eqn:Hlist.
  - destruct (convert_all descriptors) as [tools|e] eqn:Hconv.
    + destruct (chat_first world tools (messages c ++ [UserEntry query]))
        as [m|e] eqn:Hchat.
      * left. exists tools, m, descriptors. auto.
      * right. intros tools' m (d & Hd & Hc & Hm).
        injection Hd as <-. rewrite Hconv in Hc. injection Hc as <-.
        rewrite Hchat in Hm. discriminate.
    + right. intros tools' m (d & Hd & Hc & _).
      injection Hd as <-. rewrite Hconv in Hc. discriminate.
  - right. intros tools' m (d & Hd & _). discriminate.
Qed.

(** A turn that gets no first model response raises, with the user entry
    appended and nothing dispatched. *)
Lemma turn_unanswered world query c :
  (forall tools m, ~ first_response world query c tools m) ->
  exists e new,
    turn world query c =
      (Raise e,
       {| messages := messages c ++ [UserEntry query]; calls := calls c ++ new |}) /\
    call_tool_events new = [] /\ chat_count new <= 1.
Proof.
  intros Hnone. run_turn.
  destruct (list_tools world) as [descriptors|e] eqn:Hlist; simpl.
  - destruct (convert_all descriptors) as [tools|e] eqn:Hconv; simpl.
    + destruct (chat_first world tools (messages c ++ [UserEntry query]))
        as [m|e] eqn:Hchat; simpl.
      * destruct (Hnone tools m). exists descriptors. auto.
      * exists e, [EvListTools; EvChat tools (messages c ++ [UserEntry query])].
        rewrite <- app_assoc. simpl. auto.
    + exists e, [EvListTools]. auto.
  - exists e, [EvListTools]. auto.
Qed.

(** Once the arguments of the first request are parsed, the tool process is
    asked exactly once, for that request, and the model at most once more. *)
Lemma turn_dispatch_once world query c tools m request more a :
  first_response world query c tools m ->
  tool_calls m = Some (request :: more) ->
  parse (arguments (function request)) = Ok a ->
  let c' := (turn world query c).2 in
  call_tool_events (issued c c') = [EvCallTool (fn_name (function request)) a] /\
  1 <= chat_count (issued c c') <= 2.
Proof.
  intros Hfirst Hsome Hparse.
  destruct (call_tool world (fn_name (function request)) a) as [r|e] eqn:Hcall.
  - destruct (result_content r) as [|block blocks] eqn:Hblocks.
    + rewrite (turn_no_blocks _ _ _ _ _ _ _ _ _ Hfirst Hsome Hparse Hcall Hblocks).
      simpl. erewrite issued_app; [|tidy; reflexivity]. simpl.
      unfold chat_count. simpl. auto.
    + rewrite (turn_tool_entry _ _ _ _ _ _ _ _ _ _ _
                 Hfirst Hsome Hparse Hcall Hblocks).
      simpl. erewrite issued_app; [|tidy; reflexivity]. simpl.
      unfold chat_count. simpl. auto.
  - rewrite (turn_dispatch_raises _ _ _ _ _ _ _ _ _ Hfirst Hsome Hparse Hcall).
    simpl. erewrite issued_app; [|tidy; reflexivity]. simpl.
    unfold chat_count. simpl. auto.
Qed.

(** C2 (amended). A non-empty argument payload that [json.loads] rejects
    aborts the turn: the decode error is raised out of the turn before any
    dispatch, no tool entry is appended and the model is not called again.
    An empty payload is not parsed: the arguments are the empty mapping, and
    the tool is dispatched with it. *)
Theorem payload_parse_outcomes world query c tools m request more :
  first_response world query c tools m ->
  tool_calls m = Some (request :: more) ->
  let payload := arguments (function request) in
  let c' := (turn world query c).2 in
  (payload <> EmptyString -> json_loads payload = None ->
     (turn world query c).1 = Raise JSONDecodeError /\
     appended c c' = [UserEntry query; AssistantEntry m] /\
     call_tool_events (issued c c') = [] /\
     chat_count (issued c c') = 1) /\
  (payload = EmptyString ->
     parse payload = Ok (JObj []) /\
     call_tool_events (issued c c') =
       [EvCallTool (fn_name (function request)) (JObj [])]).
Proof.
  intros Hfirst Hsome payload c'. split.
  - intros Hfull Hbad.
    assert (Hparse : parse payload = Raise JSONDecodeError).
    { unfold parse_arguments, loads. rewrite Hbad.
      destruct payload; [contradiction | reflexivity]. }
    subst c'. rewrite (turn_parse_failure _ _ _ _ _ _ _ _ Hfirst Hsome Hparse).
    simpl.
    rewrite (issued_app c (answered c query tools m) _ eq_refl).
    rewrite (appended_app c (answered c query tools m) _ eq_refl).
    done.
  - intros Hempty.
    assert (Hparse : parse payload = Ok (JObj [])).
    { rewrite Hempty. reflexivity. }
    split; [exact Hparse|].
    apply (turn_dispatch_once _ _ _ _ _ _ _ _ Hfirst Hsome Hparse).
Qed.

(** C3 (amended). In a turn whose first model response carries at least one
    tool-call request, [callTool] is invoked at most once, only for the
    first request, and the model is called at most once more, whatever the
    second response requests.  When the payload of the first request is empty
    or parses, [callTool] is invoked exactly once; when the dispatch then
    returns a result with a content block, the second model call is issued
    exactly once. *)
Theorem single_hop_dispatch world query c tools m request more :
  first_response world query c tools m ->
  tool_calls m = Some (request :: more) ->
  let tool := fn_name (function request) in
  let c' := (turn world query c).2 in
  (call_tool_events (issued c c') = [] \/
   exists a, parse (arguments (function request)) = Ok a /\
             call_tool_events (issued c c') = [EvCallTool tool a]) /\
  chat_count (issued c c') <= 2 /\
  (forall a,
     parse (arguments (function request)) = Ok a ->
     call_tool_events (issued c c') = [EvCallTool tool a]) /\
  (forall a r,
     parse (arguments (function request)) = Ok a ->
     call_tool world tool a = Ok r ->
     result_content r <> [] ->
     chat_count (issued c c') = 2).
Proof.
  intros Hfirst Hsome tool c'.
  destruct (parse (arguments (function request))) as [a|e] eqn:Hparse.
  - destruct (turn_dispatch_once _ _ _ _ _ _ _ _ Hfirst Hsome Hparse)
      as [Hcalls [_ Hchat]].
    fold c' in Hcalls, Hchat. repeat split.
    + right. exists a. auto.
    + exact Hchat.
    + intros a' [= <-]. exact Hcalls.
    + intros a' r [= <-] Hcall Hblocks.
      destruct (result_content r) as [|block blocks] eqn:Hcons; [done|].
      subst c'.
      rewrite (turn_tool_entry _ _ _ _ _ _ _ _ _ _ _
                 Hfirst Hsome Hparse Hcall Hcons).
      simpl. erewrite issued_app; [|tidy; reflexivity]. reflexivity.
  - subst c'. rewrite (turn_parse_failure _ _ _ _ _ _ _ _ Hfirst Hsome Hparse).
    simpl. rewrite (issued_app c (answered c query tools m) _ eq_refl).
    repeat split.
    + left. reflexivity.
    + unfold chat_count. simpl. lia.
    + intros a' [=].
    + intros a' r [=].
Qed.

(** C6. When the first model response carries both text and a tool-call
    request, that text is not part of the answer: a turn that returns an
    answer returns the announcement of the call and the text of the second
    model response, joined by a newline, and does so whenever the dispatch
    yields a content block and the second response carries text. *)
Theorem first_text_discarded world query c tools m text request more :
  first_response world query c tools m ->
  content m = Some text ->
  tool_calls m = Some (request :: more) ->
  let tool := fn_name (function request) in
  (forall a r block blocks m2 text2,
     parse (arguments (function request)) = Ok a ->
     call_tool world tool a = Ok r ->
     result_content r = block :: blocks ->
     chat_second world tools
       (with_tool_entry model_dump_json c query m request block) = Ok m2 ->
     content m2 = Some text2 ->
     (turn world query c).1 = Ok (announce tool a +:+ newline +:+ text2)) /\
  (forall out,
     (turn world query c).1 = Ok out ->
     exists a r block blocks m2 text2,
       parse (arguments (function request)) = Ok a /\
       call_tool world tool a = Ok r /\
       result_content r = block :: blocks /\
       chat_second world tools
         (with_tool_entry model_dump_json c query m request block) = Ok m2 /\
       content m2 = Some text2 /\
       out = announce tool a +:+ newline +:+ text2).
Proof.
  intros Hfirst _ Hsome tool. split.
  - intros a r block blocks m2 text2 Hparse Hcall Hcons Hsecond Htext2.
    rewrite (turn_tool_entry _ _ _ _ _ _ _ _ _ _ _
               Hfirst Hsome Hparse Hcall Hcons).
    simpl. rewrite Hsecond. simpl. rewrite Htext2. reflexivity.
  - intros out Hout.
    destruct (parse (arguments (function request))) as [a|e] eqn:Hparse.
    2:{ rewrite (turn_parse_failure _ _ _ _ _ _ _ _ Hfirst Hsome Hparse) in Hout.
        discriminate. }
    destruct (call_tool world tool a) as [r|e] eqn:Hcall.
    2:{ rewrite (turn_dispatch_raises _ _ _ _ _ _ _ _ _
                   Hfirst Hsome Hparse Hcall) in Hout. discriminate. }
    destruct (result_content r) as [|block blocks] eqn:Hcons.
    { rewrite (turn_no_blocks _ _ _ _ _ _ _ _ _
                 Hfirst Hsome Hparse Hcall Hcons) in Hout. discriminate. }
    rewrite (turn_tool_entry _ _ _ _ _ _ _ _ _ _ _
               Hfirst Hsome Hparse Hcall Hcons) in Hout.
    simpl in Hout.
    destruct (chat_second world tools _) as [m2|e] eqn:Hsecond; [|discriminate].
    simpl in Hout. destruct (content m2) as [text2|] eqn:Htext2; [|discriminate].
    injection Hout as <-.
    exists a, r, block, blocks, m2, text2. auto 10.
Qed.

(** *** The conversation log *)

(** What a turn that got its first model response appends. *)
Lemma turn_answered_growth world query c tools m :
  first_response world query c tools m ->
  exists delta,
    messages (turn world query c).2 = messages c ++ delta /\
    turn_growth query delta /\
    2 <= length delta.
Proof.
  intros Hfirst.
  destruct (tool_calls m) as [[|request more]|] eqn:Hcalls.
  - rewrite (turn_empty_requests _ _ _ _ _ Hfirst Hcalls).
    eexists. split; [reflexivity|]. split; [constructor | simpl; lia].
  - destruct (parse (arguments (function request))) as [a|e] eqn:Hparse.
    + destruct (call_tool world (fn_name (function request)) a)
        as [r|e] eqn:Hcall.
      * destruct (result_content r) as [|block blocks] eqn:Hcons.
        -- rewrite (turn_no_blocks _ _ _ _ _ _ _ _ _
                      Hfirst Hcalls Hparse Hcall Hcons).
           eexists. split; [reflexivity|]. split; [constructor | simpl; lia].
        -- rewrite (turn_tool_entry _ _ _ _ _ _ _ _ _ _ _
                      Hfirst Hcalls Hparse Hcall Hcons).
           eexists. split; [reflexivity|].
           split; [econstructor; eassumption | simpl; lia].
      * rewrite (turn_dispatch_raises _ _ _ _ _ _ _ _ _
                   Hfirst Hcalls Hparse Hcall).
        eexists. split; [reflexivity|]. split; [constructor | simpl; lia].
    + rewrite (turn_parse_failure _ _ _ _ _ _ _ _ Hfirst Hcalls Hparse).
      eexists. split; [reflexivity|]. split; [constructor | simpl; lia].
  - rewrite (turn_no_tool_calls _ _ _ _ _ Hfirst Hcalls).
    eexists. split; [reflexivity|]. split; [constructor | simpl; lia].
Qed.

Lemma turn_growth_length query delta :
  turn_growth query delta -> 1 <= length delta <= 3.
Proof. destruct 1; simpl; lia. Qed.

Lemma turn_grows world query c :
  exists delta,
    messages (turn world query c).2 = messages c ++ delta /\
    turn_growth query delta /\
    (length delta = 1 <->
     forall tools m, ~ first_response world query c tools m).
Proof.
  destruct (first_response_dec world query c) as [(tools & m & Hfirst)|Hnone].
  - destruct (turn_answered_growth _ _ _ _ _ Hfirst) as (delta & Hlog & Hgrow & Hlen).
    exists delta. split; [exact Hlog|]. split; [exact Hgrow|]. split.
    + lia.
    + intros Hnone. destruct (Hnone _ _ Hfirst).
  - destruct (turn_unanswered _ _ _ Hnone) as (e & new & -> & _).
    exists [UserEntry query]. split; [reflexivity|]. split; [constructor|].
    split; auto.
Qed.

Lemma correlated_grows log query delta :
  correlated log -> turn_growth query delta -> correlated (log ++ delta).
Proof.
  intros Hlog Hgrow i id tool payload Hi.
  apply lookup_app_Some in Hi as [Hi|[Hge Hi]].
  - destruct (Hlog _ _ _ _ Hi) as (j & m & request & more & -> & Hj & Hm & Hid).
    exists j, m, request, more. repeat split; auto.
    apply lookup_app_l_Some. exact Hj.
  - remember (i - length log) as k eqn:Hk.
    destruct Hgrow as [|m|m request more tool' payload' Hm];
      destruct k as [|[|[|k]]]; simpl in Hi; try discriminate.
    injection Hi as <- <- <-.
    exists (length log + 1), m, request, more. repeat split; auto.
    + lia.
    + rewrite lookup_app_r by lia.
      replace (length log + 1 - length log) with 1 by lia. reflexivity.
Qed.

#[local] Abbreviation chat := (chat_turns json_loads py_str model_dump_json).

Lemma chat_turns_log turns : forall c,
  exists new,
    messages (chat turns c) = messages c ++ new /\
    length turns <= length new <= 3 * length turns /\
    (correlated (messages c) -> correlated (messages (chat turns c))).
Proof.
  induction turns as [|[world query] turns IH]; intros c.
  - exists []. simpl. rewrite app_nil_r. auto with lia.
  - simpl.
    destruct (turn_grows world query c) as (delta & Hlog & Hgrow & _).
    destruct (IH (turn world query c).2) as (new & Hnew & Hlen & Hcorr).
    pose proof (turn_growth_length _ _ Hgrow) as Hdelta.
    exists (delta ++ new). split; [|split].
    + rewrite Hnew, Hlog, app_assoc. reflexivity.
    + rewrite length_app. lia.
    + intros Hc. apply Hcorr. rewrite Hlog.
      eapply correlated_grows; eassumption.
Qed.

(** C5 (amended). Over every sequence of turns the log only grows at its
    end, by one, two or three entries per turn, and every tool entry follows
    the assistant entry whose first tool-call request carries its identifier.
    A turn appends the user entry alone exactly when it fails before a first
    model response is received; otherwise it appends user and assistant, or
    user, assistant and tool. *)
Theorem log_append_only turns c :
  (exists new,
     messages (chat turns c) = messages c ++ new /\
     length turns <= length new <= 3 * length turns) /\
  (correlated (messages c) -> correlated (messages (chat turns c))) /\
  (forall world query c0,
     exists delta,
       messages (turn world query c0).2 = messages c0 ++ delta /\
       turn_growth query delta /\
       (length delta = 1 <->
        forall tools m, ~ first_response world query c0 tools m)).
Proof.
  destruct (chat_turns_log turns c) as (new & Hnew & Hlen & Hcorr).
  split; [exists new; auto|]. split; [exact Hcorr|].
  apply turn_grows.
Qed.

End TurnFacts.

(** ** The schema adapter *)

(** C7 (amended). For a descriptor whose input schema has the entries
    [properties] and [required], the adapter returns an object with the
    fields [name], [description] and [parameters], and the [parameters] object
    holds the two entries as they are in the input schema. *)
Theorem convert_tool_format_copies tool properties required :
  inputSchema tool !! "properties" = Some properties ->
  inputSchema tool !! "required" = Some required ->
  exists schema fn parameters,
    convert_tool_format tool = Ok schema /\
    field "type" schema = Some (JStr "function") /\
    field "function" schema = Some fn /\
    field "name" fn = Some (JStr (name tool)) /\
    field "description" fn = Some (opt_str (description tool)) /\
    field "parameters" fn = Some parameters /\
    field "type" parameters = Some (JStr "object") /\
    field "properties" parameters = Some properties /\
    field "required" parameters = Some required.
Proof.
  intros Hprops Hreq. unfold convert_tool_format, subscript.
  rewrite Hprops, Hreq. do 3 eexists. repeat split; reflexivity.
Qed.

(** A schema without one of the two entries makes the adapter raise. *)
Lemma convert_tool_format_missing tool :
  inputSchema tool !! "properties" = None \/
  inputSchema tool !! "required" = None ->
  exists key, convert_tool_format tool = Raise (KeyError key).
Proof.
  unfold convert_tool_format, subscript.
  destruct (inputSchema tool !! "properties") as [p|];
    destruct (inputSchema tool !! "required") as [r|];
    intros [H|H]; try discriminate; eauto.
Qed.

(** ** Connecting *)

Lemma connect_spawns_first world path c :
  endswith path ".py" || endswith path ".js" = true ->
  exists later,
    issued c (connect_to_server world path c).2 =
      EvSpawn {| command := if endswith path ".py" then "python" else "node";
                 args := [path];
                 env := None |} :: later.
Proof.
  intros Hext. unfold connect_to_server. rewrite Hext. simpl.
  unfold mbind, M_bind, lift, emit, set_messages. simpl.
  set (params := {| command := _; args := _; env := _ |}).
  destruct (conn_stdio_client world params);
    [destruct (conn_client_session world);
      [destruct (conn_initialize world);
        [destruct (conn_list_tools world)|]|]|];
    simpl; eexists; apply issued_app; simpl;
    rewrite <- ?app_assoc; simpl; reflexivity.
Qed.

(** C8. A script path that ends in neither [.py] nor [.js] makes
    [connect_to_server] raise before anything is launched: the client is left
    as it was.  Otherwise the first thing it does is to launch the server,
    with [python] for [.py] and [node] for [.js], the script path as the only
    argument and no environment of its own. *)
Theorem connect_checks_extension world path c :
  (endswith path ".py" = false -> endswith path ".js" = false ->
     connect_to_server world path c =
       (Raise (ValueError "Server script must be a .py or .js file"), c)) /\
  (endswith path ".py" = true ->
     exists later,
       issued c (connect_to_server world path c).2 =
         EvSpawn {| command := "python"; args := [path]; env := None |} :: later) /\
  (endswith path ".py" = false -> endswith path ".js" = true ->
     exists later,
       issued c (connect_to_server world path c).2 =
         EvSpawn {| command := "node"; args := [path]; env := None |} :: later).
Proof.
  split; [|split].
  - intros Hpy Hjs. unfold connect_to_server. rewrite Hpy, Hjs. reflexivity.
  - intros Hpy. destruct (connect_spawns_first world path c) as [later H].
    + rewrite Hpy. reflexivity.
    + rewrite Hpy in H. eauto.
  - intros Hpy Hjs. destruct (connect_spawns_first world path c) as [later H].
    + rewrite Hpy, Hjs. reflexivity.
    + rewrite Hpy in H. eauto.
Qed.

(** * Further facts *)

(** ** The schema adapter on incomplete descriptors *)

(** X1. The adapter reads [properties] before [required]: a schema without
    [properties] raises [KeyError] for that key, whether or not [required] is
    there, and a schema with [properties] but without [required] raises it
    for [required]. *)
Theorem convert_tool_format_key_errors tool :
  (inputSchema tool !! "properties" = None ->
     convert_tool_format tool = Raise (KeyError "properties")) /\
  (is_Some (inputSchema tool !! "properties") ->
     inputSchema tool !! "required" = None ->
     convert_tool_format tool = Raise (KeyError "required")).
Proof.
  unfold convert_tool_format, subscript. split.
  - intros ->. reflexivity.
  - intros [p ->] ->. reflexivity.
Qed.

(** X2. The conversion of a tool list succeeds exactly when every descriptor
    converts, and then yields the converted descriptors one for one, in the
    order of the list. *)
Theorem convert_all_ok_iff tools schemas :
  convert_all tools = Ok schemas <->
  Forall2 (fun tool schema => convert_tool_format tool = Ok schema) tools schemas.
Proof.
  revert schemas. induction tools as [|tool rest IH]; intros schemas; simpl.
  - split.
    + intros [= <-]. constructor.
    + intros H. inversion H. reflexivity.
  - destruct (convert_tool_format tool) as [converted|e] eqn:Htool.
    + destruct (convert_all rest) as [more|e] eqn:Hrest.
      * split.
        -- intros [= <-]. constructor; [exact Htool|]. apply IH. reflexivity.
        -- intros H. inversion H as [|? s ? ss Hs Hss]; subst.
           rewrite Htool in Hs. injection Hs as <-.
           apply IH in Hss. injection Hss as <-. reflexivity.
      * split; [discriminate|].
        intros H. inversion H as [|? s ? ss Hs Hss]; subst.
        apply IH in Hss. discriminate.
    + split; [discriminate|].
      intros H. inversion H as [|? s ? ss Hs Hss]; subst.
      rewrite Htool in Hs. discriminate.
Qed.

(** X3. The conversion of a tool list raises exactly when some descriptor
    does not convert, and the exception is that of the first such descriptor:
    the descriptors after it are not looked at. *)
Theorem convert_all_first_failure tools e :
  convert_all tools = Raise e <->
  exists good bad rest converted,
    tools = good ++ bad :: rest /\
    convert_all good = Ok converted /\
    convert_tool_format bad = Raise e.
Proof.
  induction tools as [|tool tools IH]; simpl.
  - split; [discriminate|].
    intros (good & bad & rest & converted & Heq & _).
    destruct good; discriminate.
  - destruct (convert_tool_format tool) as [schema|e'] eqn:Htool.
    + destruct (convert_all tools) as [more|e''] eqn:Hrest.
      * split; [discriminate|].
        intros (good & bad & rest & converted & Heq & Hgood & Hbad).
        destruct good as [|g good]; simpl in Heq; injection Heq as -> ->.
        -- rewrite Htool in Hbad. discriminate.
        -- assert (Ok more = Raise e) as Habs; [|discriminate].
           apply IH. simpl in Hgood. rewrite Htool in Hgood.
           destruct (convert_all good) as [converted'|] eqn:Hg; [|discriminate].
           exists good, bad, rest, converted'. auto.
      * split.
        -- intros [= ->].
           destruct (proj1 IH eq_refl)
             as (good & bad & rest & converted & -> & Hgood & Hbad).
           exists (tool :: good), bad, rest, (schema :: converted).
           simpl. rewrite Htool, Hgood. auto.
        -- intros (good & bad & rest & converted & Heq & Hgood & Hbad).
           destruct good as [|g good]; simpl in Heq; injection Heq as -> ->.
           ++ rewrite Htool in Hbad. discriminate.
           ++ simpl in Hgood. rewrite Htool in Hgood.
              destruct (convert_all good) as [converted'|] eqn:Hg; [|discriminate].
              f_equal. assert (Raise (A := list JSON) e'' = Raise e) as [= ->];
                [|reflexivity].
              apply IH. exists good, bad, rest, converted'. auto.
    + split.
      * intros [= ->]. exists [], tool, tools, []. auto.
      * intros (good & bad & rest & converted & Heq & Hgood & Hbad).
        destruct good as [|g good]; simpl in Heq; injection Heq as -> ->.
        -- rewrite Htool in Hbad. injection Hbad as ->. reflexivity.
        -- simpl in Hgood. rewrite Htool in Hgood. discriminate.
Qed.

(** ** More on one turn *)

Section MoreTurnFacts.

Variable json_loads : string -> option JSON.
Variable py_str : JSON -> string.
Variable model_dump_json : ContentBlock -> string.

#[local] Abbreviation turn := (process_query json_loads py_str model_dump_json).
#[local] Abbreviation parse := (parse_arguments json_loads).
#[local] Abbreviation announce := (announcement py_str).
#[local] Abbreviation tool_log := (with_tool_entry model_dump_json).

(** Case analysis over the paths of a turn that got its first response. *)
Ltac turn_paths Hfirst :=
  match type of Hfirst with
  | first_response ?w ?q ?c ?tools ?m =>
    destruct (tool_calls m) as [[|request more]|] eqn:Hcalls;
    [ rewrite (turn_empty_requests json_loads py_str model_dump_json
                 _ _ _ _ _ Hfirst Hcalls)
    | destruct (parse_arguments json_loads (arguments (function request)))
        as [a|e] eqn:Hparse;
      [ destruct (call_tool w (fn_name (function request)) a)
          as [r|e] eqn:Hcall;
        [ destruct (result_content r) as [|block blocks] eqn:Hcons;
          [ rewrite (turn_no_blocks json_loads py_str model_dump_json
                       _ _ _ _ _ _ _ _ _ Hfirst Hcalls Hparse Hcall Hcons)
          | rewrite (turn_tool_entry json_loads py_str model_dump_json
                       _ _ _ _ _ _ _ _ _ _ _ Hfirst Hcalls Hparse Hcall Hcons) ]
        | rewrite (turn_dispatch_raises json_loads py_str model_dump_json
                     _ _ _ _ _ _ _ _ _ Hfirst Hcalls Hparse Hcall) ]
      | rewrite (turn_parse_failure json_loads py_str model_dump_json
                   _ _ _ _ _ _ _ _ Hfirst Hcalls Hparse) ]
    | rewrite (turn_no_tool_calls json_loads py_str model_dump_json
                 _ _ _ _ _ Hfirst Hcalls) ]
  end.

(** The three ways in which a turn ends before its first model response. *)
Lemma turn_listing_raises world query c e :
  list_tools world = Raise e ->
  turn world query c =
    (Raise e,
     {| messages := messages c ++ [UserEntry query];
        calls := calls c ++ [EvListTools] |}).
Proof. intros Hlist. run_turn. rewrite Hlist. reflexivity. Qed.

Lemma turn_conversion_raises world query c descriptors e :
  list_tools world = Ok descriptors ->
  convert_all descriptors = Raise e ->
  turn world query c =
    (Raise e,
     {| messages := messages c ++ [UserEntry query];
        calls := calls c ++ [EvListTools] |}).
Proof. intros Hlist Hconv. run_turn. rewrite Hlist, Hconv. reflexivity. Qed.

Lemma turn_first_call_raises world query c descriptors tools e :
  list_tools world = Ok descriptors ->
  convert_all descriptors = Ok tools ->
  chat_first world tools (messages c ++ [UserEntry query]) = Raise e ->
  turn world query c =
    (Raise e,
     {| messages := messages c ++ [UserEntry query];
        calls := calls c ++
          [EvListTools; EvChat tools (messages c ++ [UserEntry query])] |}).
Proof.
  intros Hlist Hconv Hchat. run_turn.
  rewrite Hlist, Hconv. simpl. rewrite Hchat. simpl.
  rewrite <- app_assoc. reflexivity.
Qed.

(** X4. What fails before the first model response leaves the turn as it is:
    the exception of the tool listing, of the schema conversion or of the
    first model call is the exception of the turn.  The user entry is in the
    log by then, and in the first two cases the model was never called; so a
    single descriptor without [properties] or [required] makes every turn
    raise [KeyError] before the model is asked. *)
Theorem turn_fails_before_response world query c :
  let c' := (turn world query c).2 in
  (forall e,
     list_tools world = Raise e ->
     (turn world query c).1 = Raise e /\
     appended c c' = [UserEntry query] /\ issued c c' = [EvListTools]) /\
  (forall good bad rest converted e,
     list_tools world = Ok (good ++ bad :: rest) ->
     convert_all good = Ok converted ->
     convert_tool_format bad = Raise e ->
     (turn world query c).1 = Raise e /\
     appended c c' = [UserEntry query] /\ issued c c' = [EvListTools]) /\
  (forall descriptors tools e,
     list_tools world = Ok descriptors ->
     convert_all descriptors = Ok tools ->
     chat_first world tools (messages c ++ [UserEntry query]) = Raise e ->
     (turn world query c).1 = Raise e /\
     appended c c' = [UserEntry query] /\
     issued c c' =
       [EvListTools; EvChat tools (messages c ++ [UserEntry query])]).
Proof.
  split; [|split].
  - intros e Hlist. rewrite (turn_listing_raises _ _ _ _ Hlist). simpl.
    erewrite issued_app, appended_app; [|reflexivity..]. auto.
  - intros good bad rest converted e Hlist Hgood Hbad.
    assert (Hconv : convert_all (good ++ bad :: rest) = Raise e).
    { clear Hlist. revert converted Hgood.
      induction good as [|g good IH]; intros converted Hgood; simpl.
      - rewrite Hbad. reflexivity.
      - simpl in Hgood. destruct (convert_tool_format g); [|discriminate].
        destruct (convert_all good) as [more|]; [|discriminate].
        rewrite (IH more eq_refl). reflexivity. }
    rewrite (turn_conversion_raises _ _ _ _ _ Hlist Hconv). simpl.
    erewrite issued_app, appended_app; [|reflexivity..]. auto.
  - intros descriptors tools e Hlist Hconv Hchat.
    rewrite (turn_first_call_raises _ _ _ _ _ _ Hlist Hconv Hchat). simpl.
    erewrite issued_app, appended_app; [|reflexivity..]. auto.
Qed.

(** X5. The outside calls of a turn are a beginning of one fixed sequence:
    the tool listing, the model call on the history that ends in the new user
    entry, one tool dispatch, and the second model call on the log as the turn
    leaves it, with the tool list of the first call.  The listing is always
    asked; nothing is asked twice or out of this order. *)
Theorem turn_call_order world query c :
  let c' := (turn world query c).2 in
  exists tools tool a,
    issued c c' `prefix_of`
      [EvListTools; EvChat tools (messages c ++ [UserEntry query]);
       EvCallTool tool a; EvChat tools (messages c')] /\
    issued c c' <> [].
Proof.
  destruct (list_tools world) as [descriptors|e] eqn:Hlist.
  2:{ rewrite (turn_listing_raises _ _ _ _ Hlist). simpl.
      exists [], EmptyString, JNull.
      erewrite issued_app; [|reflexivity]. split; [|discriminate].
      eexists. reflexivity. }
  destruct (convert_all descriptors) as [tools|e] eqn:Hconv.
  2:{ rewrite (turn_conversion_raises _ _ _ _ _ Hlist Hconv). simpl.
      exists [], EmptyString, JNull.
      erewrite issued_app; [|reflexivity]. split; [|discriminate].
      eexists. reflexivity. }
  destruct (chat_first world tools (messages c ++ [UserEntry query]))
    as [m|e] eqn:Hchat.
  2:{ rewrite (turn_first_call_raises _ _ _ _ _ _ Hlist Hconv Hchat). simpl.
      exists tools, EmptyString, JNull.
      erewrite issued_app; [|reflexivity]. split; [|discriminate].
      eexists. reflexivity. }
  assert (Hfirst : first_response world query c tools m).
  { exists descriptors. auto. }
  turn_paths Hfirst; simpl;
    (erewrite issued_app; [|tidy; reflexivity]);
    first [ exists tools, (fn_name (function request)), a
          | exists tools, EmptyString, JNull ];
    (split; [eexists; reflexivity | discriminate]).
Qed.

(** X6. The turn never reads the error flag of a Tool Result: two tool
    processes that raise alike and return the same content blocks, and differ
    only in how they flag their results, lead to the same outcome of the turn
    and the same client. *)
Theorem turn_ignores_error_flag world world' query c :
  list_tools world' = list_tools world ->
  chat_first world' = chat_first world ->
  chat_second world' = chat_second world ->
  (forall tool a,
     match call_tool world tool a, call_tool world' tool a with
     | Ok r, Ok r' => result_content r' = result_content r
     | Raise e, Raise e' => e' = e
     | _, _ => False
     end) ->
  turn world' query c = turn world query c.
Proof.
  intros Hlist Hfirst Hsecond Htool. run_turn.
  rewrite Hlist, Hfirst, Hsecond.
  destruct (list_tools world) as [descriptors|e]; [|reflexivity]. simpl.
  destruct (convert_all descriptors) as [tools|e]; [|reflexivity]. simpl.
  destruct (chat_first world tools (messages c ++ [UserEntry query]))
    as [m|e]; [|reflexivity]. simpl.
  destruct (tool_calls m) as [[|request more]|]; [reflexivity| |reflexivity].
  simpl.
  destruct (parse_arguments json_loads (arguments (function request)))
    as [a|e]; [|reflexivity].
  specialize (Htool (fn_name (function request)) a).
  destruct (call_tool world (fn_name (function request)) a) as [r|e];
    destruct (call_tool world' (fn_name (function request)) a) as [r'|e'];
    try contradiction; [|reflexivity].
  simpl. rewrite Htool. reflexivity.
Qed.

(** X7. Once the tool entry is appended, a second model call that raises
    makes the turn raise the same exception, and a second response without
    text (as when it asks for another tool) makes the joining of the answer
    raise [TypeError].  In both cases, as when the turn returns, the log ends
    with the tool entry: the second response is never appended, and its
    tool-call requests are never dispatched. *)
Theorem turn_after_tool_entry world query c tools m request more a r block blocks :
  first_response world query c tools m ->
  tool_calls m = Some (request :: more) ->
  parse (arguments (function request)) = Ok a ->
  call_tool world (fn_name (function request)) a = Ok r ->
  result_content r = block :: blocks ->
  let c' := (turn world query c).2 in
  let second := chat_second world tools (tool_log c query m request block) in
  messages c' = tool_log c query m request block /\
  call_tool_events (issued c c') = [EvCallTool (fn_name (function request)) a] /\
  (forall e, second = Raise e -> (turn world query c).1 = Raise e) /\
  (forall m2, second = Ok m2 -> content m2 = None ->
     (turn world query c).1 = Raise TypeError).
Proof.
  intros Hfirst Hcalls Hparse Hcall Hcons.
  rewrite (turn_tool_entry json_loads py_str model_dump_json
             _ _ _ _ _ _ _ _ _ _ _ Hfirst Hcalls Hparse Hcall Hcons).
  simpl. repeat split.
  - erewrite issued_app; [|tidy; reflexivity]. reflexivity.
  - intros e ->. reflexivity.
  - intros m2 -> Htext. simpl. rewrite Htext. reflexivity.
Qed.

(** X8. A turn returns an answer in two cases only: the first response has
    no tool-call list and carries the answer as its text; or the arguments of
    its first request parse, the dispatch returns a result with a content
    block, the second model call succeeds and carries text, and the answer is
    the announcement, a newline and that text.  Every other turn raises. *)
Theorem turn_returns_iff world query c out :
  (turn world query c).1 = Ok out <->
  exists tools m,
    first_response world query c tools m /\
    ((tool_calls m = None /\ content m = Some out) \/
     exists request more a r block blocks m2 text2,
       tool_calls m = Some (request :: more) /\
       parse (arguments (function request)) = Ok a /\
       call_tool world (fn_name (function request)) a = Ok r /\
       result_content r = block :: blocks /\
       chat_second world tools (tool_log c query m request block) = Ok m2 /\
       content m2 = Some text2 /\
       out = announce (fn_name (function request)) a +:+ newline +:+ text2).
Proof.
  split.
  - destruct (first_response_dec world query c) as [(tools & m & Hfirst)|Hnone].
    2:{ destruct (turn_unanswered json_loads py_str model_dump_json _ _ _ Hnone)
          as (e & new & -> & _). discriminate. }
    intros Hout. exists tools, m. split; [exact Hfirst|].
    revert Hout. turn_paths Hfirst; simpl; try discriminate.
    + destruct (chat_second world tools _) as [m2|e] eqn:Hsecond; [|discriminate].
      simpl. destruct (content m2) as [text2|] eqn:Htext2; [|discriminate].
      intros [= <-]. right.
      exists request, more, a, r, block, blocks, m2, text2. auto 10.
    + destruct (content m) as [text|]; [|discriminate].
      intros [= <-]. left. auto.
  - intros (tools & m & Hfirst & [[Hnone Htext]|Htool]).
    + rewrite (turn_no_tool_calls json_loads py_str model_dump_json
                 _ _ _ _ _ Hfirst Hnone). simpl. rewrite Htext. reflexivity.
    + destruct Htool as (request & more & a & r & block & blocks & m2 & text2 &
                         Hcalls & Hparse & Hcall & Hcons & Hsecond & Htext2 & ->).
      rewrite (turn_tool_entry json_loads py_str model_dump_json
                 _ _ _ _ _ _ _ _ _ _ _ Hfirst Hcalls Hparse Hcall Hcons).
      simpl. rewrite Hsecond. simpl. rewrite Htext2. reflexivity.
Qed.

(** The model is asked as soon as the tool list is there and converts. *)
Lemma turn_asks_model world query c descriptors tools :
  list_tools world = Ok descriptors ->
  convert_all descriptors = Ok tools ->
  exists later,
    issued c (turn world query c).2 =
      EvListTools :: EvChat tools (messages c ++ [UserEntry query]) :: later.
Proof.
  intros Hlist Hconv.
  destruct (chat_first world tools (messages c ++ [UserEntry query]))
    as [m|e] eqn:Hchat.
  - assert (Hfirst : first_response world query c tools m).
    { exists descriptors. auto. }
    turn_paths Hfirst; simpl; eexists;
      (erewrite issued_app; [|tidy; reflexivity]); reflexivity.
  - rewrite (turn_first_call_raises _ _ _ _ _ _ Hlist Hconv Hchat). simpl.
    eexists. erewrite issued_app; reflexivity.
Qed.

(** X9. Nothing is taken back when a turn raises.  After a turn whose
    dispatch raised, the log holds the assistant entry with its tool-call
    request and no tool entry for it, and the next turn hands exactly this
    history, followed by its own user entry, to the model. *)
Theorem unanswered_request_stays
    world query c tools m request more a e world' query' descriptors' tools' :
  first_response world query c tools m ->
  tool_calls m = Some (request :: more) ->
  parse (arguments (function request)) = Ok a ->
  call_tool world (fn_name (function request)) a = Raise e ->
  list_tools world' = Ok descriptors' ->
  convert_all descriptors' = Ok tools' ->
  let c1 := (turn world query c).2 in
  let c2 := (turn world' query' c1).2 in
  messages c1 = messages c ++ [UserEntry query; AssistantEntry m] /\
  EvChat tools'
    (messages c ++ [UserEntry query; AssistantEntry m; UserEntry query'])
    ∈ issued c1 c2.
Proof.
  intros Hfirst Hcalls Hparse Hcall Hlist' Hconv' c1 c2.
  assert (Hlog : messages c1 = messages c ++ [UserEntry query; AssistantEntry m]).
  { subst c1.
    rewrite (turn_dispatch_raises json_loads py_str model_dump_json
               _ _ _ _ _ _ _ _ _ Hfirst Hcalls Hparse Hcall).
    reflexivity. }
  split; [exact Hlog|].
  destruct (turn_asks_model world' query' c1 _ _ Hlist' Hconv') as [later Hissued].
  fold c2 in Hissued. rewrite Hissued, Hlog, <- app_assoc. simpl.
  apply list_elem_of_further, list_elem_of_here.
Qed.

End MoreTurnFacts.

(** ** Connecting, in full *)

Lemma length_append (s t : string) :
  String.length (s +:+ t) = String.length s + String.length t.
Proof. induction s as [|ch s IH]; simpl; [reflexivity | rewrite IH; reflexivity]. Qed.

Lemma substring_all (s : string) : String.substring 0 (String.length s) s = s.
Proof. induction s as [|ch s IH]; simpl; [reflexivity | rewrite IH; reflexivity]. Qed.

Lemma substring_append (stem suffix : string) :
  String.substring (String.length stem) (String.length suffix) (stem +:+ suffix)
  = suffix.
Proof. induction stem as [|ch stem IH]; simpl; [apply substring_all | exact IH]. Qed.

Lemma substring_split (s : string) : forall k,
  k <= String.length s ->
  s = String.substring 0 k s +:+ String.substring k (String.length s - k) s.
Proof.
  induction s as [|ch s IH]; intros [|k] Hk; simpl in *; try lia.
  - reflexivity.
  - rewrite substring_all. reflexivity.
  - change (String ch s =
            String ch (String.substring 0 k s +:+
                       String.substring k (String.length s - k) s)).
    f_equal. apply IH. lia.
Qed.

(** [endswith] holds exactly of the strings that are a stem followed by the
    suffix. *)
Lemma endswith_spec (s suffix : string) :
  endswith s suffix = true <-> exists stem, s = stem +:+ suffix.
Proof.
  unfold endswith. split.
  - destruct (String.length suffix <=? String.length s)%nat eqn:Hle; [|discriminate].
    apply Nat.leb_le in Hle. intros Heq. apply String.eqb_eq in Heq.
    exists (String.substring 0 (String.length s - String.length suffix) s).
    set (n := String.length s) in *. set (m := String.length suffix) in *.
    transitivity (String.substring 0 (n - m) s +:+
                  String.substring (n - m) (n - (n - m)) s).
    + apply substring_split. lia.
    + f_equal. replace (n - (n - m)) with m by lia. exact Heq.
  - intros [stem ->]. rewrite length_append.
    replace (String.length suffix <=? String.length stem + String.length suffix)%nat
      with true by (symmetry; apply Nat.leb_le; lia).
    replace (String.length stem + String.length suffix - String.length suffix)
      with (String.length stem) by lia.
    rewrite substring_append. apply String.eqb_refl.
Qed.

Lemma issued_same c : issued c c = [].
Proof. unfold issued. apply drop_all. Qed.

Lemma connect_rejects world path c :
  (forall stem, path <> stem +:+ ".py") ->
  (forall stem, path <> stem +:+ ".js") ->
  connect_to_server world path c =
    (Raise (ValueError "Server script must be a .py or .js file"), c).
Proof.
  intros Hpy Hjs. unfold connect_to_server.
  destruct (endswith path ".py") eqn:H.
  { apply endswith_spec in H as [stem ->]. destruct (Hpy stem eq_refl). }
  destruct (endswith path ".js") eqn:H'.
  { apply endswith_spec in H' as [stem ->]. destruct (Hjs stem eq_refl). }
  reflexivity.
Qed.

(** X10. [connect_to_server] raises its [ValueError] and leaves the client
    untouched exactly for the paths that are neither a stem followed by [.py]
    nor a stem followed by [.js]; the test is on the exact, case-sensitive
    last three characters. *)
Theorem connect_rejects_iff world path c :
  connect_to_server world path c =
    (Raise (ValueError "Server script must be a .py or .js file"), c) <->
  (forall stem, path <> stem +:+ ".py") /\ (forall stem, path <> stem +:+ ".js").
Proof.
  split.
  - intros Hconn.
    destruct (endswith path ".py" || endswith path ".js") eqn:Hext.
    + destruct (connect_spawns_first world path c Hext) as [later Hissued].
      rewrite Hconn, issued_same in Hissued. discriminate.
    + apply orb_false_elim in Hext as [Hpy Hjs]. split; intros stem ->.
      * assert (endswith (stem +:+ ".py") ".py" = true) as H
          by (apply endswith_spec; eauto).
        congruence.
      * assert (endswith (stem +:+ ".js") ".js" = true) as H
          by (apply endswith_spec; eauto).
        congruence.
  - intros [Hpy Hjs]. apply connect_rejects; assumption.
Qed.

(** X11. For a path with an accepted extension, [connect_to_server] succeeds
    exactly when the launch, the session, the handshake and the tool listing
    all succeed.  It then leaves an empty conversation, whatever the client
    held before, after these four steps in this order.  When a step raises,
    the later steps are not tried and the conversation is left as it was. *)
Theorem connect_outcomes world path c :
  endswith path ".py" || endswith path ".js" = true ->
  let params := {| command := if endswith path ".py" then "python" else "node";
                   args := [path];
                   env := None |} in
  let steps := [EvSpawn params; EvOpenSession; EvInitialize; EvListTools] in
  let done := connect_to_server world path c in
  (done.1 = Ok tt <->
     conn_stdio_client world params = Ok tt /\
     conn_client_session world = Ok tt /\
     conn_initialize world = Ok tt /\
     exists tools, conn_list_tools world = Ok tools) /\
  (done.1 = Ok tt -> messages done.2 = [] /\ issued c done.2 = steps) /\
  (forall e,
     done.1 = Raise e ->
     messages done.2 = messages c /\
     issued c done.2 `prefix_of` steps /\ issued c done.2 <> []).
Proof.
  intros Hext params steps. unfold connect_to_server. rewrite Hext. simpl.
  fold params. unfold mbind, M_bind, lift, emit, set_messages. simpl.
  destruct (conn_stdio_client world params) as [[]|e1]; simpl.
  2:{ repeat split; try discriminate.
      - intros (H & _). discriminate.
      - erewrite issued_app; [|reflexivity]. eexists. reflexivity.
      - erewrite issued_app; [|reflexivity]. discriminate. }
  destruct (conn_client_session world) as [[]|e2]; simpl.
  2:{ repeat split; try discriminate.
      - intros (_ & H & _). discriminate.
      - erewrite issued_app; [|rewrite <- ?app_assoc; reflexivity].
        eexists. reflexivity.
      - erewrite issued_app; [|rewrite <- ?app_assoc; reflexivity].
        discriminate. }
  destruct (conn_initialize world) as [[]|e3]; simpl.
  2:{ repeat split; try discriminate.
      - intros (_ & _ & H & _). discriminate.
      - erewrite issued_app; [|rewrite <- ?app_assoc; reflexivity].
        eexists. reflexivity.
      - erewrite issued_app; [|rewrite <- ?app_assoc; reflexivity].
        discriminate. }
  destruct (conn_list_tools world) as [tools|e4]; simpl.
  2:{ repeat split; try discriminate.
      - intros (_ & _ & _ & tools & H). discriminate.
      - erewrite issued_app; [|rewrite <- ?app_assoc; reflexivity].
        eexists (nil). reflexivity.
      - erewrite issued_app; [|rewrite <- ?app_assoc; reflexivity].
        discriminate. }
  repeat split; eauto; try discriminate.
  erewrite issued_app; [|rewrite <- ?app_assoc; reflexivity]. reflexivity.
Qed.

(** ** The loop and the entry point *)

Section LoopFacts.

Variable json_loads : string -> option JSON.
Variable py_str : JSON -> string.
Variable model_dump_json : ContentBlock -> string.
Variable strip : string -> string.
Variable lower : string -> string.

#[local] Abbreviation turn := (process_query json_loads py_str model_dump_json).
#[local] Abbreviation turns := (chat_turns json_loads py_str model_dump_json).
#[local] Abbreviation loop :=
  (chat_loop json_loads py_str model_dump_json strip lower).
#[local] Abbreviation quit := (is_quit strip lower).
#[local] Abbreviation program :=
  (main json_loads py_str model_dump_json strip lower).

(** X12. The loop ends at the first line that, stripped and lowered, is
    [quit].  It takes one iteration per line up to and including that one;
    the client it leaves is the one the turns on the stripped earlier lines
    produce, in order and with failed turns kept; the later lines are never
    read. *)
Theorem chat_loop_quits before world line after : forall fuel c,
  Forall (fun typed => quit typed.2 = false) before ->
  quit line = true ->
  loop fuel (before ++ (world, line) :: after) c =
    if (fuel <=? length before)%nat then None
    else Some (turns (queries strip before) c).
Proof.
  induction before as [|[w l] before IH]; intros fuel c Hbefore Hquit.
  - destruct fuel as [|fuel]; simpl; [reflexivity|].
    unfold is_quit in Hquit. rewrite Hquit. reflexivity.
  - destruct fuel as [|fuel]; [reflexivity|].
    apply Forall_cons in Hbefore as [Hl Hbefore].
    unfold is_quit in Hl. simpl in Hl. simpl. rewrite Hl.
    apply IH; assumption.
Qed.

Lemma loop_without_quit : forall fuel console c,
  Forall (fun typed => quit typed.2 = false) console ->
  loop fuel console c = None.
Proof.
  induction fuel as [|fuel IH]; intros console c Hconsole; [reflexivity|].
  destruct console as [|[w l] console]; simpl.
  - apply IH. constructor.
  - apply Forall_cons in Hconsole as [Hl Hconsole].
    unfold is_quit in Hl. simpl in Hl. rewrite Hl. apply IH. exact Hconsole.
Qed.

Lemma quit_or_not (console : list (TurnEnv * string)) :
  Exists (fun typed => quit typed.2 = true) console \/
  Forall (fun typed => quit typed.2 = false) console.
Proof.
  induction console as [|typed console [IH|IH]].
  - right. constructor.
  - left. apply Exists_cons_tl. exact IH.
  - destruct (quit typed.2) eqn:Hq.
    + left. apply Exists_cons_hd. exact Hq.
    + right. constructor; assumption.
Qed.

(** X13. The loop returns only through its [break]: if it returns, some
    line of the input is [quit].  Neither a turn that raised nor the end of
    the input returns from it; at the end of the input [input()] raises
    [EOFError], which the handler catches like the exception of a turn, and
    the loop asks for input again.  So [main] returns normally only when a
    [quit] line was typed. *)
Theorem loop_returns_only_by_quit console :
  (forall fuel c c',
     loop fuel console c = Some c' ->
     Exists (fun typed => quit typed.2 = true) console) /\
  (forall fuel world argv run,
     program fuel world argv console = Some run ->
     ending run = Returned ->
     Exists (fun typed => quit typed.2 = true) console).
Proof.
  assert (Hloop : forall fuel c c',
            loop fuel console c = Some c' ->
            Exists (fun typed => quit typed.2 = true) console).
  { intros fuel c c' Hsome. destruct (quit_or_not console) as [H|H]; [exact H|].
    rewrite (loop_without_quit fuel console c H) in Hsome. discriminate. }
  split; [exact Hloop|].
  intros fuel world argv run. unfold main.
  destruct (length argv <? 2)%nat; [intros [= <-]; discriminate|].
  destruct (MCPClient_init world) as [c|e]; [|intros [= <-]; discriminate].
  destruct (index argv 1) as [path|e]; [|intros [= <-]; discriminate].
  destruct (connect_to_server (server world) path c) as [[[]|e] connected];
    [|intros [= <-]; discriminate].
  destruct (loop fuel console connected) as [final|] eqn:Hfinal; [|discriminate].
  intros _ _. exact (Hloop fuel connected final Hfinal).
Qed.

(** X14. [main] fails before anything is launched when the script path is
    missing from the command line (exit status 1) or the API key is missing
    from the configuration ([KeyError]); no client is built and [cleanup]
    does not run.  With a script path of the wrong extension the client is
    built, nothing is launched, and [cleanup] still runs once. *)
Theorem main_fails_fast fuel world argv console :
  (length argv < 2 ->
     program fuel world argv console =
       Some {| ending := SystemExit 1; client := None; cleanups := 0 |}) /\
  (2 <= length argv ->
     config world !! "OPENROUTER_API_KEY" = None ->
     program fuel world argv console =
       Some {| ending := Uncaught (KeyError "OPENROUTER_API_KEY");
               client := None; cleanups := 0 |}) /\
  (forall c path,
     MCPClient_init world = Ok c ->
     argv !! 1 = Some path ->
     (forall stem, path <> stem +:+ ".py") ->
     (forall stem, path <> stem +:+ ".js") ->
     program fuel world argv console =
       Some {| ending :=
                 Uncaught (ValueError "Server script must be a .py or .js file");
               client := Some c; cleanups := 1 |}).
Proof.
  unfold main. repeat split.
  - intros Hlen. apply Nat.ltb_lt in Hlen. rewrite Hlen. reflexivity.
  - intros Hlen Hkey.
    replace (length argv <? 2)%nat with false
      by (symmetry; apply Nat.ltb_ge; lia).
    unfold MCPClient_init. rewrite Hkey. reflexivity.
  - intros c path Hinit Hpath Hpy Hjs.
    assert (Hlen : 2 <= length argv).
    { apply lookup_lt_Some in Hpath. lia. }
    replace (length argv <? 2)%nat with false
      by (symmetry; apply Nat.ltb_ge; lia).
    rewrite Hinit. unfold index. rewrite Hpath.
    rewrite (connect_rejects (server world) path c Hpy Hjs).
    reflexivity.
Qed.


End LoopFacts.

(** * The scenarios *)

Import Scenario.

Ltac scenario_first := exists [list_files]; repeat split; reflexivity.



(** A descriptor whose schema has [properties] and no [required], as a tool
    without mandatory parameters declares it: the adapter produces no object,
    it raises [KeyError]. *)
Lemma descriptor_without_required_raises :
  inputSchema ping !! "properties" = Some (JObj []) /\
  inputSchema ping !! "required" = None /\
  convert_tool_format ping = Raise (KeyError "required").
Proof. repeat split; done. Qed.

Lemma empty_request_list_raises_witness :
  (run empty_requests question fresh).1 = Raise IndexError /\
  appended fresh (run empty_requests question fresh).2 =
    [UserEntry question;
     AssistantEntry {| content := Some "Nothing to call."; tool_calls := Some [] |}].
Proof.
  destruct (empty_request_list_raises json_loads py_str model_dump_json
              empty_requests question fresh schemas
              {| content := Some "Nothing to call."; tool_calls := Some [] |}
              ltac:(scenario_first) eq_refl) as (Hout & Hlog & _).
  split; [exact Hout | exact Hlog].
Defined.

Lemma tool_entry_first_block_witness :
  result_content listing = [TextContent "a.txt"; TextContent "b.txt"] /\
  appended fresh (run tool_success question fresh).2 =
    [UserEntry question; AssistantEntry (asks payload_tmp);
     ToolEntry "call_1" "list_files" (model_dump_json (TextContent "a.txt"))].
Proof.
  split; [reflexivity|].
  exact (proj1 (tool_entry_first_block json_loads py_str model_dump_json
                  tool_success question fresh schemas (asks payload_tmp)
                  (request payload_tmp) [] (JObj [("path", JStr "/tmp")]) listing
                  ltac:(scenario_first) eq_refl eq_refl eq_refl)
               (TextContent "a.txt") [TextContent "b.txt"] eq_refl).
Defined.

Lemma dispatch_fault_aborts_turn_witness :
  call_tool tool_fault "list_files" (JObj [("path", JStr "/tmp")]) =
    Raise (ExternalError "broken pipe") /\
  (run tool_fault question fresh).1 = Raise AttributeError /\
  appended fresh (run tool_fault question fresh).2 =
    [UserEntry question; AssistantEntry (asks payload_tmp)] /\
  chat_count (issued fresh (run tool_fault question fresh).2) = 1.
Proof.
  split; [reflexivity|].
  destruct (dispatch_fault_aborts_turn json_loads py_str model_dump_json
              tool_fault question fresh schemas (asks payload_tmp)
              (request payload_tmp) [] (JObj [("path", JStr "/tmp")])
              (ExternalError "broken pipe")
              ltac:(scenario_first) eq_refl eq_refl eq_refl)
    as (Hout & Hlog & _ & Hchat).
  split; [exact Hout|]. split; [exact Hlog | exact Hchat].
Defined.

(** A malformed payload: the first response asks for [list_files], yet the
    turn raises [JSONDecodeError], no tool entry is in the log and the model
    was called once; the turn gives no answer. *)
Lemma malformed_payload_crashes :
  payload_malformed <> EmptyString /\
  json_loads payload_malformed = None /\
  (run bad_payload question fresh).1 = Raise JSONDecodeError /\
  List.filter is_tool_entry (messages (run bad_payload question fresh).2) = [] /\
  chat_count (issued fresh (run bad_payload question fresh).2) = 1.
Proof. repeat split; done. Qed.

Lemma payload_parse_outcomes_witness :
  (run bad_payload question fresh).1 = Raise JSONDecodeError /\
  call_tool_events (issued fresh (run no_payload question fresh).2) =
    [EvCallTool "list_files" (JObj [])].
Proof.
  split.
  - exact (proj1 (proj1 (payload_parse_outcomes json_loads py_str model_dump_json
             bad_payload question fresh schemas (asks payload_malformed)
             (request payload_malformed) []
             ltac:(scenario_first) eq_refl)
             ltac:(discriminate) eq_refl)).
  - exact (proj2 (proj2 (payload_parse_outcomes json_loads py_str model_dump_json
             no_payload question fresh schemas (asks EmptyString)
             (request EmptyString) []
             ltac:(scenario_first) eq_refl)
             eq_refl)).
Defined.

(** The same turn issues no [callTool] at all and no second model call,
    although its first response carries a tool-call request. *)
Lemma malformed_payload_no_dispatch :
  tool_calls (asks payload_malformed) = Some [request payload_malformed] /\
  chat_first bad_payload schemas [UserEntry question] = Ok (asks payload_malformed) /\
  call_tool_events (issued fresh (run bad_payload question fresh).2) = [] /\
  chat_count (issued fresh (run bad_payload question fresh).2) = 1.
Proof. repeat split; done. Qed.

Lemma single_hop_dispatch_witness :
  call_tool_events (issued fresh (run tool_success question fresh).2) =
    [EvCallTool "list_files" (JObj [("path", JStr "/tmp")])] /\
  chat_count (issued fresh (run tool_success question fresh).2) = 2.
Proof.
  destruct (single_hop_dispatch json_loads py_str model_dump_json
              tool_success question fresh schemas (asks payload_tmp)
              (request payload_tmp) [] ltac:(scenario_first) eq_refl)
    as (_ & _ & Hcalls & Hchat).
  split.
  - exact (Hcalls (JObj [("path", JStr "/tmp")]) eq_refl).
  - exact (Hchat (JObj [("path", JStr "/tmp")]) listing eq_refl eq_refl
             ltac:(discriminate)).
Defined.

Lemma first_text_discarded_witness :
  content (asks payload_tmp) = Some "Let me look." /\
  (run tool_success question fresh).1 =
    Ok ("[Calling tool list_files with args {'path': '/tmp'}]" +:+ newline +:+
        "Two files: a.txt and b.txt.").
Proof.
  split; [reflexivity|].
  exact (proj1 (first_text_discarded json_loads py_str model_dump_json
                  tool_success question fresh schemas (asks payload_tmp)
                  "Let me look." (request payload_tmp) []
                  ltac:(scenario_first) eq_refl eq_refl)
               (JObj [("path", JStr "/tmp")]) listing
               (TextContent "a.txt") [TextContent "b.txt"]
               (says "Two files: a.txt and b.txt.") "Two files: a.txt and b.txt."
               eq_refl eq_refl eq_refl eq_refl eq_refl).
Defined.

(** A turn in which the model call fails appends the user entry alone: the
    log grows by one entry, neither by two nor by three. *)
Lemma failed_model_call_grows_by_one :
  (run model_down question fresh).1 = Raise (ExternalError "rate limit") /\
  messages (run model_down question fresh).2 =
    messages fresh ++ [UserEntry question] /\
  length (messages (run model_down question fresh).2) <>
    length (messages fresh) + 2 /\
  length (messages (run model_down question fresh).2) <>
    length (messages fresh) + 3.
Proof. repeat split; done. Qed.

Lemma log_append_only_witness :
  correlated (messages fresh) /\
  correlated
    (messages (chat_turns json_loads py_str model_dump_json three_turns fresh)) /\
  length (messages (chat_turns json_loads py_str model_dump_json three_turns fresh))
    = 6.
Proof.
  assert (Hfresh : correlated (messages fresh)).
  { intros i id tool payload Hi. destruct i; discriminate. }
  split; [exact Hfresh|]. split; [|reflexivity].
  exact (proj1 (proj2 (log_append_only json_loads py_str model_dump_json
                         three_turns fresh)) Hfresh).
Defined.

Lemma convert_tool_format_copies_witness :
  inputSchema list_files !! "properties" =
    Some (JObj [("path", JObj [("type", JStr "string")])]) /\
  inputSchema list_files !! "required" = Some (JArr [JStr "path"]) /\
  exists schema fn parameters,
    convert_tool_format list_files = Ok schema /\
    field "type" schema = Some (JStr "function") /\
    field "function" schema = Some fn /\
    field "name" fn = Some (JStr "list_files") /\
    field "description" fn = Some (JStr "List the files of a directory") /\
    field "parameters" fn = Some parameters /\
    field "type" parameters = Some (JStr "object") /\
    field "properties" parameters =
      Some (JObj [("path", JObj [("type", JStr "string")])]) /\
    field "required" parameters = Some (JArr [JStr "path"]).
Proof.
  split; [reflexivity|]. split; [reflexivity|].
  exact (convert_tool_format_copies list_files
           (JObj [("path", JObj [("type", JStr "string")])])
           (JArr [JStr "path"]) eq_refl eq_refl).
Defined.

Lemma connect_checks_extension_witness :
  connect_to_server connection "server.rb" fresh =
    (Raise (ValueError "Server script must be a .py or .js file"), fresh) /\
  (exists later,
     issued fresh (connect_to_server connection "server.py" fresh).2 =
       EvSpawn {| command := "python"; args := ["server.py"]; env := None |}
       :: later) /\
  (exists later,
     issued fresh (connect_to_server connection "build/server.js" fresh).2 =
       EvSpawn {| command := "node"; args := ["build/server.js"]; env := None |}
       :: later).
Proof.
  split; [|split].
  - exact (proj1 (connect_checks_extension connection "server.rb" fresh)
             eq_refl eq_refl).
  - exact (proj1 (proj2 (connect_checks_extension connection "server.py" fresh))
             eq_refl).
  - exact (proj2 (proj2 (connect_checks_extension connection "build/server.js" fresh))
             eq_refl eq_refl).
Defined.

(** ** Scenarios for the further facts *)

Lemma convert_tool_format_key_errors_witness :
  inputSchema ping !! "required" = None /\
  convert_tool_format ping = Raise (KeyError "required").
Proof.
  split; [reflexivity|].
  exact (proj2 (convert_tool_format_key_errors ping)
           ltac:(eexists; reflexivity) eq_refl).
Defined.

Lemma turn_fails_before_response_witness :
  convert_tool_format ping = Raise (KeyError "required") /\
  (run broken_listing question fresh).1 = Raise (KeyError "required") /\
  issued fresh (run broken_listing question fresh).2 = [EvListTools].
Proof.
  split; [reflexivity|].
  destruct (proj1 (proj2 (turn_fails_before_response json_loads py_str
                            model_dump_json broken_listing question fresh))
              [list_files] ping [] schemas (KeyError "required")
              eq_refl eq_refl eq_refl) as (Hout & _ & Hcalls).
  split; [exact Hout | exact Hcalls].
Defined.

Lemma turn_ignores_error_flag_witness :
  run tool_error question fresh = run tool_success question fresh.
Proof.
  apply (turn_ignores_error_flag json_loads py_str model_dump_json
           tool_success tool_error question fresh);
    [reflexivity | reflexivity | reflexivity |].
  intros tool a. reflexivity.
Defined.

Lemma turn_after_tool_entry_witness :
  (run asks_again question fresh).1 = Raise TypeError /\
  call_tool_events (issued fresh (run asks_again question fresh).2) =
    [EvCallTool "list_files" (JObj [("path", JStr "/tmp")])].
Proof.
  destruct (turn_after_tool_entry json_loads py_str model_dump_json
              asks_again question fresh schemas (asks payload_tmp)
              (request payload_tmp) [] (JObj [("path", JStr "/tmp")]) listing
              (TextContent "a.txt") [TextContent "b.txt"]
              ltac:(scenario_first) eq_refl eq_refl eq_refl eq_refl)
    as (_ & Hcalls & _ & Hnone).
  split; [|exact Hcalls].
  exact (Hnone {| content := None; tool_calls := Some [request payload_tmp] |}
           eq_refl eq_refl).
Defined.

Lemma unanswered_request_stays_witness :
  EvChat schemas
    [UserEntry question; AssistantEntry (asks payload_tmp);
     UserEntry "What is 2+2?"]
  ∈ issued (run tool_fault question fresh).2
      (run plain_answer "What is 2+2?" (run tool_fault question fresh).2).2.
Proof.
  exact (proj2 (unanswered_request_stays json_loads py_str model_dump_json
                  tool_fault question fresh schemas (asks payload_tmp)
                  (request payload_tmp) [] (JObj [("path", JStr "/tmp")])
                  (ExternalError "broken pipe")
                  plain_answer "What is 2+2?" [list_files] schemas
                  ltac:(scenario_first) eq_refl eq_refl eq_refl
                  eq_refl eq_refl)).
Defined.

Lemma connect_outcomes_witness :
  messages (connect_to_server connection "server.py" busy).2 = [] /\
  messages (connect_to_server mute "server.py" busy).2 = messages busy.
Proof.
  split.
  - exact (proj1 (proj1 (proj2 (connect_outcomes connection "server.py" busy
                                  eq_refl)) eq_refl)).
  - exact (proj1 (proj2 (proj2 (connect_outcomes mute "server.py" busy eq_refl))
                    (ExternalError "timed out") eq_refl)).
Defined.

Lemma chat_loop_quits_witness :
  loop 3 console fresh =
    Some (chat_turns json_loads py_str model_dump_json
            [(tool_success, "List files in /tmp"); (model_down, "And in /var?")]
            fresh) /\
  loop 2 console fresh = None.
Proof.
  split.
  - exact (chat_loop_quits json_loads py_str model_dump_json strip lower
             [(tool_success, "  List files in /tmp "); (model_down, "And in /var?")]
             plain_answer " QUIT  " [(plain_answer, "What is 2+2?")] 3 fresh
             ltac:(repeat constructor) eq_refl).
  - exact (chat_loop_quits json_loads py_str model_dump_json strip lower
             [(tool_success, "  List files in /tmp "); (model_down, "And in /var?")]
             plain_answer " QUIT  " [(plain_answer, "What is 2+2?")] 2 fresh
             ltac:(repeat constructor) eq_refl).
Defined.

Lemma loop_returns_only_by_quit_witness :
  loop 3 console fresh =
    Some (chat_turns json_loads py_str model_dump_json
            [(tool_success, "List files in /tmp"); (model_down, "And in /var?")]
            fresh) /\
  Exists (fun typed => is_quit strip lower typed.2 = true) console.
Proof.
  split; [reflexivity|].
  exact (proj1 (loop_returns_only_by_quit json_loads py_str model_dump_json
                  strip lower console)
           3 fresh
           (chat_turns json_loads py_str model_dump_json
              [(tool_success, "List files in /tmp"); (model_down, "And in /var?")]
              fresh)
           eq_refl).
Defined.

Lemma main_fails_fast_witness :
  entry 10 setup ["client.py"] console =
    Some {| ending := SystemExit 1; client := None; cleanups := 0 |} /\
  entry 10 no_key ["client.py"; "server.py"] console =
    Some {| ending := Uncaught (KeyError "OPENROUTER_API_KEY");
            client := None; cleanups := 0 |} /\
  entry 10 setup ["client.py"; "server.rb"] console =
    Some {| ending :=
              Uncaught (ValueError "Server script must be a .py or .js file");
            client := Some fresh; cleanups := 1 |}.
Proof.
  destruct (main_fails_fast json_loads py_str model_dump_json strip lower
              10 setup ["client.py"] console) as (Husage & _).
  destruct (main_fails_fast json_loads py_str model_dump_json strip lower
              10 no_key ["client.py"; "server.py"] console) as (_ & Hkey & _).
  destruct (main_fails_fast json_loads py_str model_dump_json strip lower
              10 setup ["client.py"; "server.rb"] console) as (_ & _ & Hext).
  split; [|split].
  - apply Husage. simpl. lia.
  - apply Hkey; [simpl; lia | reflexivity].
  - apply (Hext fresh "server.rb"); [reflexivity | reflexivity | |];
      intros stem Hstem;
      [ assert (endswith "server.rb" ".py" = true) as H
          by (apply endswith_spec; eauto)
      | assert (endswith "server.rb" ".js" = true) as H
          by (apply endswith_spec; eauto) ];
      discriminate H.
Defined.

